(** * Coffee-to-GO: the caffeine tracker's decay model and forecast

    A shallow embedding of the tracker of [caffeine_tracker.go] and of its
    two later variants (the one with [AddDrink], and the one with
    [CalculateCaffeineLevelAt] and [GenerateForecast]).

    Modelling conventions.
    - [time.Time] is an instant counted in nanoseconds ([Z]); the wall
      clock and the monotonic clock are taken to agree.
    - [time.Duration] is an [int64] count of nanoseconds; [Time.Sub]
      saturates at the ends of that range, as the [time] package documents.
    - [float64] is idealised as the real numbers: [+], [*], [/] and [<]
      are exact and [math.Pow] is [Rpower].
    - A method is a computation over the tracker (its mutex and its
      event slice) that also records, in a ghost log, each access to
      [t.events] and each call to [math.Pow] or [fmt.Printf] together
      with whether the mutex was held at that moment. The reading of
      [time.Now()] is an argument of the method. *)

From Stdlib Require Import ZArith List Bool Lia Lra.
From Stdlib Require Import Reals.
From Stdlib Require Import Ascii String.
Import ListNotations.

Open Scope Z_scope.

(** ** Package [time] *)

Module time.

Definition Time := Z.
Definition Duration := Z.

Definition Nanosecond : Duration := 1.
Definition Microsecond : Duration := 1000 * Nanosecond.
Definition Millisecond : Duration := 1000 * Microsecond.
Definition Second : Duration := 1000 * Millisecond.
Definition Minute : Duration := 60 * Second.
Definition Hour : Duration := 60 * Minute.

Definition minDuration : Duration := - 2 ^ 63.
Definition maxDuration : Duration := 2 ^ 63 - 1.

(** [t.Sub(u)]: the duration [t - u], or the largest (smallest)
    duration when the difference does not fit. *)
Definition Sub (t u : Time) : Duration :=
  let d := t - u in
  if d <? minDuration then minDuration
  else if maxDuration <? d then maxDuration
  else d.

(** [t.Add(d)]. *)
Definition Add (t : Time) (d : Duration) : Time := t + d.

(** [d.Hours()]: the integer part and the fraction are converted
    separately, as the library does. *)
Definition Hours (d : Duration) : R :=
  let hour := Z.quot d Hour in
  let nsec := Z.rem d Hour in
  (IZR hour + IZR nsec / (60 * 60 * 1e9))%R.

(** A location maps an instant (in Unix seconds) to the offset, in
    seconds east of UTC, in force at that instant. *)
Record Location := { zoneOffset : Z -> Z }.

Definition UTC : Location := {| zoneOffset := fun _ => 0 |}.

Definition digit (n : Z) : ascii :=
  ascii_of_nat (48 + Z.to_nat n).

(** Two decimal digits, zero padded. *)
Definition pad2 (n : Z) : string :=
  String (digit (n / 10)) (String (digit (n mod 10)) EmptyString).

(** Wall-clock seconds since midnight of [t] in location [loc]. *)
Definition secondsOfDay (loc : Location) (t : Time) : Z :=
  let unix := t / Second in
  (unix + zoneOffset loc unix) mod 86400.

Definition clockHour (loc : Location) (t : Time) : Z :=
  secondsOfDay loc t / 3600.

Definition clockMinute (loc : Location) (t : Time) : Z :=
  (secondsOfDay loc t mod 3600) / 60.

(** [t.Format("15:04")]: hour of the day and minute, nothing else. *)
Definition Format_15_04 (loc : Location) (t : Time) : string :=
  (pad2 (clockHour loc t) ++ ":" ++ pad2 (clockMinute loc t))%string.

(** [t.Truncate(time.Minute)]. *)
Definition TruncateMinute (t : Time) : Time :=
  t - t mod Minute.

End time.

(** ** The tracker's data *)

Record CoffeeIntakeEvent := {
  Time : time.Time;
  Amount : R
}.

Module Point.
Record ForecastPoint := {
  Time : time.Time;
  Caffeine : R;
  HasDrink : bool;
  DrinkAmount : R
}.
End Point.

Record Tracker := {
  mu : bool;   (* [true] while the mutex is held *)
  events : list CoffeeIntakeEvent
}.

(** [NewTracker]. *)
Definition NewTracker : Tracker := {| mu := false; events := [] |}.

(** ** Computations over the tracker *)

Inductive Action :=
| ReadEvents     (* a read of [t.events] *)
| WriteEvents    (* an assignment to [t.events] *)
| CallPow        (* a call to [math.Pow] *)
| CallPrintf.    (* a call to [fmt.Printf] *)

Record Entry := {
  action : Action;
  held : bool      (* was the mutex held when the action ran? *)
}.

Record World := {
  tracker : Tracker;
  log : list Entry
}.

(** [None] stands for a call that never returns (locking a held mutex)
    or that aborts the program (unlocking a free one). *)
Definition M (A : Type) : Type := World -> option (A * World).

Definition ret {A} (a : A) : M A := fun w => Some (a, w).

Definition bind {A B} (m : M A) (k : A -> M B) : M B :=
  fun w => match m w with
           | Some (a, w') => k a w'
           | None => None
           end.

Notation "x <- m ;; k" := (bind m (fun x => k))
  (at level 61, m at next level, right associativity).
Notation "m ;;; k" := (bind m (fun _ => k))
  (at level 61, right associativity).

Definition record (a : Action) : M unit :=
  fun w => Some (tt, {| tracker := tracker w;
                        log := log w ++ [{| action := a;
                                            held := mu (tracker w) |}] |}).

(** [t.mu.Lock()]. *)
Definition Lock : M unit :=
  fun w => if mu (tracker w) then None
           else Some (tt, {| tracker := {| mu := true;
                                           events := events (tracker w) |};
                             log := log w |}).

(** [t.mu.Unlock()]. *)
Definition Unlock : M unit :=
  fun w => if mu (tracker w)
           then Some (tt, {| tracker := {| mu := false;
                                           events := events (tracker w) |};
                             log := log w |})
           else None.

(** [defer t.mu.Unlock()]: the unlock runs when the body returns. *)
Definition deferUnlock {A} (body : M A) : M A :=
  r <- body ;; Unlock ;;; ret r.

(** Reading the field [t.events]. *)
Definition readEvents : M (list CoffeeIntakeEvent) :=
  record ReadEvents ;;;
  fun w => Some (events (tracker w), w).

(** Assigning the field [t.events]. *)
Definition writeEvents (evs : list CoffeeIntakeEvent) : M unit :=
  record WriteEvents ;;;
  fun w => Some (tt, {| tracker := {| mu := mu (tracker w); events := evs |};
                        log := log w |}).

(** [math.Pow]. *)
Definition Pow (x y : R) : M R :=
  record CallPow ;;; ret (Rpower x y).

(** [fmt.Printf]: only the call is recorded. *)
Definition Printf : M unit := record CallPrintf.

(** A [for ... range] loop threading the variables it assigns. *)
Fixpoint rangeM {A S} (body : S -> A -> M S) (l : list A) (s : S) : M S :=
  match l with
  | [] => ret s
  | x :: rest => s' <- body s x ;; rangeM body rest s'
  end.

(** The value a method returns when called on a tracker holding [evs]
    whose mutex is free. *)
Definition eval {A} (m : M A) (evs : list CoffeeIntakeEvent) : option A :=
  match m {| tracker := {| mu := false; events := evs |}; log := [] |} with
  | Some (a, _) => Some a
  | None => None
  end.

(** The events the tracker holds after the call. *)
Definition exec {A} (m : M A) (evs : list CoffeeIntakeEvent)
    : option (list CoffeeIntakeEvent) :=
  match m {| tracker := {| mu := false; events := evs |}; log := [] |} with
  | Some (_, w) => Some (events (tracker w))
  | None => None
  end.

(** The ghost log of the call. *)
Definition trace {A} (m : M A) (evs : list CoffeeIntakeEvent)
    : option (list Entry) :=
  match m {| tracker := {| mu := false; events := evs |}; log := [] |} with
  | Some (_, w) => Some (log w)
  | None => None
  end.

(** ** The forecast variant of the tracker (the third program) *)

(** [AddDrink]; [now] is the reading of [time.Now()]. *)
Definition AddDrink (now : time.Time) (amount : R) : M unit :=
  Lock ;;;
  deferUnlock (
    let event := {| Time := now; Amount := amount |} in
    evs <- readEvents ;;
    writeEvents (evs ++ [event]) ;;;
    _len <- readEvents ;;
    Printf).

(** The body of the [range] loop of [CalculateCaffeineLevelAt]. *)
Definition decayBody (targetTime : time.Time) (totalCaffeine : R)
    (event : CoffeeIntakeEvent) : M R :=
  let timeElapsed := time.Sub targetTime (Time event) in
  let timeElapsedHours := time.Hours timeElapsed in
  if Rlt_dec timeElapsedHours 0 then ret totalCaffeine
  else
    p <- Pow 0.5 (timeElapsedHours / 5.0) ;;
    let remainingCaffeine := (Amount event * p)%R in
    ret (totalCaffeine + remainingCaffeine)%R.

(** [CalculateCaffeineLevelAt]. *)
Definition CalculateCaffeineLevelAt (targetTime : time.Time) : M R :=
  Lock ;;;
  deferUnlock (
    let totalCaffeine := 0.0%R in
    evs <- readEvents ;;
    if (List.length evs =? 0)%nat then ret 0.0%R
    else
      evs <- readEvents ;;
      rangeM (decayBody targetTime) evs totalCaffeine).

(** The inner loop of [GenerateForecast]: the first event whose
    ["15:04"] rendering equals the target's sets both variables and
    leaves the loop. *)
Fixpoint findDrink (loc : time.Location) (evs : list CoffeeIntakeEvent)
    (targetTime : time.Time) : bool * R :=
  match evs with
  | [] => (false, 0%R)
  | event :: rest =>
      if String.eqb (time.Format_15_04 loc (Time event))
                    (time.Format_15_04 loc targetTime)
      then (true, Amount event)
      else findDrink loc rest targetTime
  end.

(** One iteration of the outer loop of [GenerateForecast]. *)
Definition forecastBody (loc : time.Location) (now : time.Time)
    (forecast : list Point.ForecastPoint) (i : Z)
    : M (list Point.ForecastPoint) :=
  let targetTime := time.Add now ((i * 30) * time.Minute) in
  caffeine <- CalculateCaffeineLevelAt targetTime ;;
  evs <- readEvents ;;
  let '(hasDrink, drinkAmount) := findDrink loc evs targetTime in
  ret (forecast ++ [{| Point.Time := targetTime;
                       Point.Caffeine := caffeine;
                       Point.HasDrink := hasDrink;
                       Point.DrinkAmount := drinkAmount |}]).

(** The values of [i] in [for i := 0; i < 48; i++]. *)
Definition forecastIndices : list Z := map Z.of_nat (seq 0 48).

(** [GenerateForecast]; [loc] is the location of the tracker's times
    ([time.Local]) and [now] the reading of [time.Now()]. *)
Definition GenerateForecast (loc : time.Location) (now : time.Time)
    : M (list Point.ForecastPoint) :=
  let forecast := [] in
  rangeM (forecastBody loc now) forecastIndices forecast.

(** [GetEvents]. *)
Definition GetEvents : M (list CoffeeIntakeEvent) :=
  Lock ;;;
  deferUnlock readEvents.

(** ** The first program, [caffeine_tracker.go] *)

Module CupTracker.

Definition caffeinePerCupMg : R := 95.0.
Definition halfLifeHours : R := 5.0.

(** [AddCoffee]. *)
Definition AddCoffee (now : time.Time) : M unit :=
  Lock ;;;
  deferUnlock (
    let event := {| Time := now; Amount := caffeinePerCupMg |} in
    evs <- readEvents ;;
    writeEvents (evs ++ [event]) ;;;
    _len <- readEvents ;;
    Printf).

Definition decayBody (now : time.Time) (totalCaffeine : R)
    (event : CoffeeIntakeEvent) : M R :=
  let timeElapsed := time.Sub now (Time event) in
  let timeElapsedHours := time.Hours timeElapsed in
  if Rlt_dec timeElapsedHours 0 then ret totalCaffeine
  else
    p <- Pow 0.5 (timeElapsedHours / halfLifeHours) ;;
    let remainingCaffeine := (Amount event * p)%R in
    ret (totalCaffeine + remainingCaffeine)%R.

(** [CalculateCurrentCaffeineLevel]; [now] is what [time.Now()]
    returns inside the locked region. *)
Definition CalculateCurrentCaffeineLevel (now : time.Time) : M R :=
  Lock ;;;
  deferUnlock (
    let totalCaffeine := 0.0%R in
    evs <- readEvents ;;
    if (List.length evs =? 0)%nat then ret 0.0%R
    else
      evs <- readEvents ;;
      rangeM (decayBody now) evs totalCaffeine).

End CupTracker.

(** ** The second program: [AddDrink] with the current-level method *)

Module DrinkTracker.

Definition decayBody (now : time.Time) (totalCaffeine : R)
    (event : CoffeeIntakeEvent) : M R :=
  let timeElapsed := time.Sub now (Time event) in
  let timeElapsedHours := time.Hours timeElapsed in
  if Rlt_dec timeElapsedHours 0 then ret totalCaffeine
  else
    p <- Pow 0.5 (timeElapsedHours / 5.0) ;;
    let remainingCaffeine := (Amount event * p)%R in
    ret (totalCaffeine + remainingCaffeine)%R.

(** [CalculateCurrentCaffeineLevel]. *)
Definition CalculateCurrentCaffeineLevel (now : time.Time) : M R :=
  Lock ;;;
  deferUnlock (
    let totalCaffeine := 0.0%R in
    evs <- readEvents ;;
    if (List.length evs =? 0)%nat then ret 0.0%R
    else
      evs <- readEvents ;;
      rangeM (decayBody now) evs totalCaffeine).

End DrinkTracker.

(** ** The decay law in the words of the specification *)

(** [hoursBetween(t, t0)]: the hours elapsed from [t0] to [t], as the
    [time] package measures them. *)
Definition hoursBetween (t t0 : time.Time) : R :=
  time.Hours (time.Sub t t0).

(** The residual contribution of one event at query time [t]. *)
Definition contribution (t : time.Time) (event : CoffeeIntakeEvent) : R :=
  let elapsedHours := hoursBetween t (Time event) in
  if Rlt_dec elapsedHours 0 then 0%R
  else (Amount event * Rpower 0.5 (elapsedHours / 5.0))%R.

(** The sum of the contributions of all events of a snapshot. *)
Definition sumContributions (snapshot : list CoffeeIntakeEvent)
    (t : time.Time) : R :=
  fold_right Rplus 0%R (map (contribution t) snapshot).

(** An event of [doseMg] logged at [t0]. *)
Definition dose (t0 : time.Time) (doseMg : R) : CoffeeIntakeEvent :=
  {| Time := t0; Amount := doseMg |}.

Arguments dose t0%_Z doseMg%_R.
Arguments hoursBetween (t t0)%_Z.
Arguments CalculateCaffeineLevelAt targetTime%_Z.
Arguments contribution t%_Z event.
Arguments sumContributions snapshot t%_Z.

(** ** What a call leaves in the ghost log *)

(** The world in which the mutex is [m], the events are [evs] and the
    log is [lg]. *)
Definition world (m : bool) (evs : list CoffeeIntakeEvent)
    (lg : list Entry) : World :=
  {| tracker := {| mu := m; events := evs |}; log := lg |}.

Definition locked (a : Action) : Entry := {| action := a; held := true |}.
Definition unlocked (a : Action) : Entry := {| action := a; held := false |}.

(** The calls to [math.Pow] of the decay loop: one for each event that
    is not in the future of [t], all with the mutex held. *)
Definition powLog (t : time.Time) (evs : list CoffeeIntakeEvent)
    : list Entry :=
  flat_map (fun event =>
              if Rlt_dec (hoursBetween t (Time event)) 0 then []
              else [locked CallPow]) evs.

(** The log of one call of the level calculation. *)
Definition levelLog (t : time.Time) (evs : list CoffeeIntakeEvent)
    : list Entry :=
  match evs with
  | [] => [locked ReadEvents]
  | _ :: _ => locked ReadEvents :: locked ReadEvents :: powLog t evs
  end.

(** The forecast point computed for index [i]. *)
Definition forecastPoint (loc : time.Location)
    (evs : list CoffeeIntakeEvent) (now : time.Time) (i : Z)
    : Point.ForecastPoint :=
  let targetTime := now + i * 30 * time.Minute in
  {| Point.Time := targetTime;
     Point.Caffeine := sumContributions evs targetTime;
     Point.HasDrink := fst (findDrink loc evs targetTime);
     Point.DrinkAmount := snd (findDrink loc evs targetTime) |}.

(** The log of the forecast iterations for the given indices. *)
Definition forecastLog (evs : list CoffeeIntakeEvent) (now : time.Time)
    (indices : list Z) : list Entry :=
  flat_map (fun i => levelLog (now + i * 30 * time.Minute) evs
                     ++ [unlocked ReadEvents]) indices.

(** A method keeps the lock discipline of the tracker on [evs]: it
    returns, the mutex is free again, and every recorded action ran with
    the mutex held. *)
Definition runsUnderLock {A} (m : M A) (evs : list CoffeeIntakeEvent)
    : Prop :=
  exists a evs' lg,
    m (world false evs []) = Some (a, world false evs' lg)
    /\ Forall (fun e => held e = true) lg.

(** The discipline of the specification, entry by entry: an access to
    the event sequence holds the mutex; the mutex is held for such
    accesses only; the decay computation runs without it. *)
Definition accessGuarded (e : Entry) : Prop :=
  action e = ReadEvents \/ action e = WriteEvents -> held e = true.

Definition lockCoversOnlyAccess (e : Entry) : Prop :=
  held e = true -> action e = ReadEvents \/ action e = WriteEvents.

Definition decayOutsideLock (e : Entry) : Prop :=
  action e = CallPow -> held e = false.

Definition specifiedDiscipline (lg : list Entry) : Prop :=
  Forall (fun e => accessGuarded e /\ lockCoversOnlyAccess e
                   /\ decayOutsideLock e) lg.

(** ** Notions of the specification used by the claims *)

(** [ta] and [tb] are consecutive event timestamps of the snapshot: both
    occur, and no event lies strictly between them. *)
Definition consecutiveTimestamps (snapshot : list CoffeeIntakeEvent)
    (ta tb : time.Time) : Prop :=
  In ta (map Time snapshot) /\ In tb (map Time snapshot) /\ ta < tb
  /\ Forall (fun e => Time e <= ta \/ tb <= Time e) snapshot.

(** Equality of two instants truncated to minute resolution. *)
Definition sameMinute (a b : time.Time) : bool :=
  time.TruncateMinute a =? time.TruncateMinute b.

(** The first event of the snapshot, in insertion order, lying in the
    minute of [ti], if any. *)
Fixpoint firstIntakeInMinute (snapshot : list CoffeeIntakeEvent)
    (ti : time.Time) : option CoffeeIntakeEvent :=
  match snapshot with
  | [] => None
  | e :: rest =>
      if sameMinute (Time e) ti then Some e
      else firstIntakeInMinute rest ti
  end.

(** ** Sequences of calls *)

(** A call of one of the tracker's methods, with the clock reading it
    makes. *)
Inductive Call :=
| CallAddDrink (now : time.Time) (amount : R)
| CallLevelAt (targetTime : time.Time)
| CallForecast (loc : time.Location) (now : time.Time)
| CallGetEvents.

Definition perform (c : Call) : M unit :=
  match c with
  | CallAddDrink now amount => AddDrink now amount
  | CallLevelAt targetTime => _level <- CalculateCaffeineLevelAt targetTime ;; ret tt
  | CallForecast loc now => _forecast <- GenerateForecast loc now ;; ret tt
  | CallGetEvents => _events <- GetEvents ;; ret tt
  end.

Fixpoint performAll (cs : list Call) : M unit :=
  match cs with
  | [] => ret tt
  | c :: rest => perform c ;;; performAll rest
  end.

(** The events a sequence of calls logs, in order. *)
Definition logged (cs : list Call) : list CoffeeIntakeEvent :=
  flat_map (fun c => match c with
                     | CallAddDrink now amount => [dose now amount]
                     | _ => []
                     end) cs.

(** The sum of the dose amounts of a snapshot. *)
Definition totalDose (snapshot : list CoffeeIntakeEvent) : R :=
  fold_right Rplus 0%R (map Amount snapshot).

(** The event renders to the same hour and minute as [ti] in [loc]. *)
Definition sameClock (loc : time.Location) (ti : time.Time)
    (e : CoffeeIntakeEvent) : Prop :=
  time.Format_15_04 loc (Time e) = time.Format_15_04 loc ti.

(** A location with one fixed offset from UTC. *)
Definition fixedZone (offset : Z) : time.Location :=
  {| time.zoneOffset := fun _ => offset |}.

(** ** The HTTP handlers *)

Module http.
Definition MethodGet : string := "GET".
Definition MethodPost : string := "POST".
Definition StatusOK : Z := 200.
Definition StatusBadRequest : Z := 400.
Definition StatusMethodNotAllowed : Z := 405.
End http.

Module Drink.
Record DrinkRequest := {
  Amount : R
}.
End Drink.

(** What a handler looks at in a request: its method, and what
    [json.NewDecoder(r.Body).Decode(&req)] makes of its body ([None]
    when the decoder returns an error). *)
Record Request := {
  Method : string;
  Body : option Drink.DrinkRequest
}.

(** What a handler writes: [http.Error] writes a text, the encoder one
    of the four JSON values. *)
Inductive Payload :=
| TextBody (msg : string)
| StatusBody (status : string)
| LevelBody (level : R)
| ForecastBody (forecast : list Point.ForecastPoint)
| EventsBody (history : list CoffeeIntakeEvent).

Record Response := {
  StatusCode : Z;
  Written : Payload
}.

(** [http.Error(w, msg, code)]. *)
Definition httpError (msg : string) (code : Z) : Response :=
  {| StatusCode := code; Written := TextBody msg |}.

(** A handler that encodes a value without setting a status answers
    200. *)
Definition encoded (body : Payload) : Response :=
  {| StatusCode := http.StatusOK; Written := body |}.

(** The handler of [/api/add-coffee] of the second and third
    programs. *)
Definition handleAddCoffee (now : time.Time) (r : Request) : M Response :=
  if negb (String.eqb (Method r) http.MethodPost)
  then ret (httpError "Method not allowed" http.StatusMethodNotAllowed)
  else
    match Body r with
    | None => ret (httpError "Invalid request body" http.StatusBadRequest)
    | Some req =>
        AddDrink now (Drink.Amount req) ;;;
        ret {| StatusCode := http.StatusOK;
               Written := StatusBody "success" |}
    end.

(** The handler of [/api/caffeine-level] of the third program. *)
Definition handleCaffeineLevel (now : time.Time) (r : Request)
    : M Response :=
  if negb (String.eqb (Method r) http.MethodGet)
  then ret (httpError "Method not allowed" http.StatusMethodNotAllowed)
  else
    level <- CalculateCaffeineLevelAt now ;;
    ret (encoded (LevelBody level)).


(** The handler of [/api/events]. *)
Definition handleEvents (r : Request) : M Response :=
  if negb (String.eqb (Method r) http.MethodGet)
  then ret (httpError "Method not allowed" http.StatusMethodNotAllowed)
  else
    history <- GetEvents ;;
    ret (encoded (EventsBody history)).

(** The handlers of the first program, [caffeine_tracker.go]. *)
Module CupServer.

(** [/api/add-coffee]: the body is not read. *)
Definition handleAddCoffee (now : time.Time) (r : Request) : M Response :=
  if negb (String.eqb (Method r) http.MethodPost)
  then ret (httpError "Method not allowed" http.StatusMethodNotAllowed)
  else
    CupTracker.AddCoffee now ;;;
    ret {| StatusCode := http.StatusOK; Written := StatusBody "success" |}.

(** [/api/caffeine-level]. *)
Definition handleCaffeineLevel (now : time.Time) (r : Request)
    : M Response :=
  if negb (String.eqb (Method r) http.MethodGet)
  then ret (httpError "Method not allowed" http.StatusMethodNotAllowed)
  else
    level <- CupTracker.CalculateCurrentCaffeineLevel now ;;
    ret (encoded (LevelBody level)).

End CupServer.

(** The result, the events and the log of a call on a tracker holding
    [evs] whose mutex is free, provided the mutex is free again when the
    call returns. *)
Definition outcome {A} (m : M A) (evs : list CoffeeIntakeEvent)
    : option (A * list CoffeeIntakeEvent * list Entry) :=
  match m (world false evs []) with
  | Some (a, w) =>
      if mu (tracker w) then None
      else Some (a, events (tracker w), log w)
  | None => None
  end.

(** ** Facts about durations and powers *)

Example Format_morning :
  time.Format_15_04 time.UTC 1704096900000000000 = "08:15"%string.
Proof. reflexivity. Qed.

Example Format_before_epoch :
  time.Format_15_04 time.UTC (-60000000000) = "23:59"%string.
Proof. reflexivity. Qed.

Example Format_offset :
  time.Format_15_04 {| time.zoneOffset := fun _ => 7200 |}
                    1704096900000000000 = "10:15"%string.
Proof. reflexivity. Qed.

Example Sub_saturates :
  time.Sub (2 ^ 64) 0 = time.maxDuration
  /\ time.Sub 0 (2 ^ 64) = time.minDuration.
Proof. split; reflexivity. Qed.

Example TruncateMinute_drops_seconds :
  time.TruncateMinute 1704096959123456789 = 1704096900000000000.
Proof. reflexivity. Qed.

Lemma Hour_value : time.Hour = 3600000000000.
Proof. reflexivity. Qed.

Lemma Hours_ratio (d : time.Duration) :
  time.Hours d = (IZR d / 3600000000000)%R.
Proof.
  unfold time.Hours. cbv zeta.
  rewrite (Z.quot_rem' d time.Hour) at 3.
  rewrite plus_IZR, mult_IZR, Hour_value.
  field.
Qed.

Lemma Hours_neg_iff (d : time.Duration) :
  (time.Hours d < 0)%R <-> d < 0.
Proof.
  rewrite Hours_ratio. split; intros H.
  - apply lt_IZR.
    assert (IZR d < 0)%R by lra. assumption.
  - apply IZR_lt in H. lra.
Qed.

Lemma Hours_mono (d1 d2 : time.Duration) :
  d1 <= d2 -> (time.Hours d1 <= time.Hours d2)%R.
Proof.
  intros H. rewrite !Hours_ratio. apply IZR_le in H. lra.
Qed.

Lemma Sub_mono (t1 t2 u : time.Time) :
  t1 <= t2 -> time.Sub t1 u <= time.Sub t2 u.
Proof.
  intros H. unfold time.Sub, time.minDuration, time.maxDuration. cbv zeta.
  repeat match goal with
         | |- context [?a <? ?b] => destruct (Z.ltb_spec a b)
         end; lia.
Qed.

Lemma Sub_neg_iff (t u : time.Time) :
  time.Sub t u < 0 <-> t < u.
Proof.
  unfold time.Sub, time.minDuration, time.maxDuration. cbv zeta.
  repeat match goal with
         | |- context [?a <? ?b] => destruct (Z.ltb_spec a b)
         end; lia.
Qed.

Lemma Sub_exact (t u : time.Time) :
  time.minDuration <= t - u <= time.maxDuration -> time.Sub t u = t - u.
Proof.
  unfold time.Sub. cbv zeta. intros [Hlo Hhi].
  destruct (Z.ltb_spec (t - u) time.minDuration); [lia|].
  destruct (Z.ltb_spec time.maxDuration (t - u)); [lia|].
  reflexivity.
Qed.

Lemma hoursBetween_neg_iff (t t0 : time.Time) :
  (hoursBetween t t0 < 0)%R <-> t < t0.
Proof.
  unfold hoursBetween. rewrite Hours_neg_iff. apply Sub_neg_iff.
Qed.

Lemma hoursBetween_mono (t1 t2 t0 : time.Time) :
  t1 <= t2 -> (hoursBetween t1 t0 <= hoursBetween t2 t0)%R.
Proof.
  intros H. apply Hours_mono, Sub_mono, H.
Qed.

Lemma hoursBetween_after (t0 : time.Time) (h : Z) :
  0 <= h <= 10 ->
  hoursBetween (t0 + h * time.Hour) t0 = IZR h.
Proof.
  intros Hh. unfold hoursBetween.
  rewrite Sub_exact.
  - rewrite Hours_ratio.
    replace (t0 + h * time.Hour - t0) with (h * 3600000000000)
      by (rewrite Hour_value; lia).
    rewrite mult_IZR. field.
  - unfold time.minDuration, time.maxDuration. rewrite Hour_value. lia.
Qed.

Lemma half_pos : (0 < 0.5)%R.
Proof. lra. Qed.

Lemma ln_half_neg : (ln 0.5 < 0)%R.
Proof.
  rewrite <- ln_1. apply ln_increasing; lra.
Qed.

Lemma Rpower_half_pos (y : R) : (0 < Rpower 0.5 y)%R.
Proof. unfold Rpower. apply exp_pos. Qed.

Lemma Rpower_half_antitone (a b : R) :
  (a <= b)%R -> (Rpower 0.5 b <= Rpower 0.5 a)%R.
Proof.
  intros Hab. unfold Rpower.
  destruct (Rle_lt_or_eq_dec _ _ Hab) as [Hlt | ->]; [|lra].
  left. apply exp_increasing.
  pose proof ln_half_neg. nra.
Qed.

Lemma Rpower_half_0 : Rpower 0.5 0 = 1%R.
Proof. apply Rpower_O, half_pos. Qed.

Lemma Rpower_half_1 : Rpower 0.5 1 = 0.5%R.
Proof. apply Rpower_1, half_pos. Qed.

Lemma Rpower_half_2 : Rpower 0.5 2 = 0.25%R.
Proof.
  replace 2%R with (1 + 1)%R by lra.
  rewrite Rpower_plus, Rpower_half_1. lra.
Qed.

(** ** Running the methods *)

Lemma Lock_run (evs : list CoffeeIntakeEvent) (lg : list Entry) :
  Lock (world false evs lg) = Some (tt, world true evs lg).
Proof. reflexivity. Qed.

Lemma Unlock_run (evs : list CoffeeIntakeEvent) (lg : list Entry) :
  Unlock (world true evs lg) = Some (tt, world false evs lg).
Proof. reflexivity. Qed.

Lemma readEvents_run (m : bool) (evs : list CoffeeIntakeEvent)
    (lg : list Entry) :
  readEvents (world m evs lg)
  = Some (evs, world m evs (lg ++ [{| action := ReadEvents; held := m |}])).
Proof. reflexivity. Qed.

Lemma writeEvents_run (m : bool) (evs evs' : list CoffeeIntakeEvent)
    (lg : list Entry) :
  writeEvents evs' (world m evs lg)
  = Some (tt, world m evs' (lg ++ [{| action := WriteEvents; held := m |}])).
Proof. reflexivity. Qed.

Lemma Printf_run (m : bool) (evs : list CoffeeIntakeEvent)
    (lg : list Entry) :
  Printf (world m evs lg)
  = Some (tt, world m evs (lg ++ [{| action := CallPrintf; held := m |}])).
Proof. reflexivity. Qed.

Lemma ret_run {A} (a : A) (w : World) : ret a w = Some (a, w).
Proof. reflexivity. Qed.

(** One step of a method: rewrite the next primitive and reduce the
    [bind] that consumed it. *)
Tactic Notation "run_with" uconstr(lem) := rewrite lem; cbv beta iota.

Lemma contribution_future (t : time.Time) (event : CoffeeIntakeEvent) :
  t < Time event -> contribution t event = 0%R.
Proof.
  intros H. unfold contribution. cbv zeta.
  destruct (Rlt_dec _ 0) as [_ | Hn]; [reflexivity|].
  exfalso. apply Hn, hoursBetween_neg_iff, H.
Qed.

Lemma contribution_past (t : time.Time) (event : CoffeeIntakeEvent) :
  Time event <= t ->
  contribution t event
  = (Amount event * Rpower 0.5 (hoursBetween t (Time event) / 5.0))%R.
Proof.
  intros H. unfold contribution. cbv zeta.
  destruct (Rlt_dec _ 0) as [Hl | _]; [|reflexivity].
  apply hoursBetween_neg_iff in Hl. lia.
Qed.

Lemma decayBody_run (t : time.Time) (total : R) (event : CoffeeIntakeEvent)
    (evs : list CoffeeIntakeEvent) (lg : list Entry) :
  decayBody t total event (world true evs lg)
  = Some ((total + contribution t event)%R,
          world true evs (lg ++ powLog t [event])).
Proof.
  unfold decayBody, contribution, powLog, hoursBetween. cbn [flat_map].
  cbv zeta.
  destruct (Rlt_dec (time.Hours (time.Sub t (Time event))) 0).
  - unfold ret, world. rewrite !app_nil_r, Rplus_0_r. reflexivity.
  - reflexivity.
Qed.

Lemma powLog_cons (t : time.Time) (event : CoffeeIntakeEvent)
    (rest : list CoffeeIntakeEvent) :
  powLog t (event :: rest) = powLog t [event] ++ powLog t rest.
Proof.
  unfold powLog. cbn [flat_map]. rewrite app_nil_r. reflexivity.
Qed.

Lemma decayLoop_run (t : time.Time) (evs0 : list CoffeeIntakeEvent) :
  forall (evs : list CoffeeIntakeEvent) (total : R) (lg : list Entry),
    rangeM (decayBody t) evs total (world true evs0 lg)
    = Some ((total + sumContributions evs t)%R,
            world true evs0 (lg ++ powLog t evs)).
Proof.
  induction evs as [|event rest IH]; intros total lg.
  - cbn. unfold ret. rewrite app_nil_r, Rplus_0_r. reflexivity.
  - cbn [rangeM]. unfold bind at 1. rewrite decayBody_run.
    rewrite IH. unfold sumContributions. cbn [map fold_right].
    rewrite (powLog_cons t event rest), app_assoc, Rplus_assoc.
    reflexivity.
Qed.

Lemma CalculateCaffeineLevelAt_run (t : time.Time)
    (evs : list CoffeeIntakeEvent) (lg : list Entry) :
  CalculateCaffeineLevelAt t (world false evs lg)
  = Some (sumContributions evs t, world false evs (lg ++ levelLog t evs)).
Proof.
  unfold CalculateCaffeineLevelAt, deferUnlock, bind.
  run_with Lock_run. run_with readEvents_run.
  destruct evs as [|event rest]; cbn [List.length Nat.eqb].
  - run_with ret_run. run_with Unlock_run. rewrite ret_run.
    unfold sumContributions, levelLog, locked. cbn [map fold_right].
    replace 0.0%R with 0%R by lra. reflexivity.
  - run_with readEvents_run. run_with decayLoop_run.
    run_with Unlock_run. rewrite ret_run.
    unfold levelLog, locked. rewrite <- !app_assoc. cbn [app].
    replace (0.0 + sumContributions (event :: rest) t)%R
      with (sumContributions (event :: rest) t) by lra.
    reflexivity.
Qed.

Lemma eval_CalculateCaffeineLevelAt (t : time.Time)
    (evs : list CoffeeIntakeEvent) :
  eval (CalculateCaffeineLevelAt t) evs = Some (sumContributions evs t).
Proof.
  unfold eval. change {| tracker := _; log := [] |} with (world false evs []).
  rewrite CalculateCaffeineLevelAt_run. reflexivity.
Qed.

Lemma AddDrink_run (now : time.Time) (amount : R)
    (evs : list CoffeeIntakeEvent) (lg : list Entry) :
  AddDrink now amount (world false evs lg)
  = Some (tt, world false (evs ++ [dose now amount])
                (lg ++ [locked ReadEvents; locked WriteEvents;
                        locked ReadEvents; locked CallPrintf])).
Proof.
  unfold AddDrink, deferUnlock, bind.
  run_with Lock_run. run_with readEvents_run. run_with writeEvents_run.
  run_with readEvents_run. run_with Printf_run. run_with Unlock_run.
  rewrite ret_run, <- !app_assoc. reflexivity.
Qed.

Lemma GetEvents_run (evs : list CoffeeIntakeEvent) (lg : list Entry) :
  GetEvents (world false evs lg)
  = Some (evs, world false evs (lg ++ [locked ReadEvents])).
Proof.
  unfold GetEvents, deferUnlock, bind.
  run_with Lock_run. run_with readEvents_run. run_with Unlock_run.
  reflexivity.
Qed.

Lemma forecastBody_run (loc : time.Location) (now : time.Time)
    (forecast : list Point.ForecastPoint) (i : Z)
    (evs : list CoffeeIntakeEvent) (lg : list Entry) :
  forecastBody loc now forecast i (world false evs lg)
  = Some (forecast ++ [forecastPoint loc evs now i],
          world false evs (lg ++ forecastLog evs now [i])).
Proof.
  unfold forecastBody, bind, time.Add. cbv zeta.
  run_with CalculateCaffeineLevelAt_run. run_with readEvents_run.
  unfold forecastPoint, forecastLog. cbv zeta. cbn [flat_map].
  destruct (findDrink loc evs (now + i * 30 * time.Minute)) as [h a].
  rewrite ret_run, app_nil_r, <- !app_assoc. reflexivity.
Qed.

Lemma forecastLoop_run (loc : time.Location) (now : time.Time)
    (evs : list CoffeeIntakeEvent) :
  forall (indices : list Z) (forecast : list Point.ForecastPoint)
         (lg : list Entry),
    rangeM (forecastBody loc now) indices forecast (world false evs lg)
    = Some (forecast ++ map (forecastPoint loc evs now) indices,
            world false evs (lg ++ forecastLog evs now indices)).
Proof.
  induction indices as [|i rest IH]; intros forecast lg.
  - cbn. rewrite !app_nil_r. reflexivity.
  - cbn [rangeM]. unfold bind at 1. run_with forecastBody_run.
    rewrite IH, <- !app_assoc. cbn [map app].
    unfold forecastLog. cbn [flat_map]. rewrite app_nil_r, <- !app_assoc.
    reflexivity.
Qed.

Lemma eval_GenerateForecast (loc : time.Location) (now : time.Time)
    (evs : list CoffeeIntakeEvent) :
  eval (GenerateForecast loc now) evs
  = Some (map (forecastPoint loc evs now) forecastIndices).
Proof.
  unfold eval, GenerateForecast. cbv zeta.
  change {| tracker := _; log := [] |} with (world false evs []).
  rewrite forecastLoop_run. reflexivity.
Qed.

Lemma trace_GenerateForecast (loc : time.Location) (now : time.Time)
    (evs : list CoffeeIntakeEvent) :
  trace (GenerateForecast loc now) evs
  = Some (forecastLog evs now forecastIndices).
Proof.
  unfold trace, GenerateForecast. cbv zeta.
  change {| tracker := _; log := [] |} with (world false evs []).
  rewrite forecastLoop_run. reflexivity.
Qed.

Lemma sumContributions_single (t : time.Time) (event : CoffeeIntakeEvent) :
  sumContributions [event] t = contribution t event.
Proof. unfold sumContributions. cbn [map fold_right]. lra. Qed.

Lemma sumContributions_app (t : time.Time)
    (evs1 evs2 : list CoffeeIntakeEvent) :
  sumContributions (evs1 ++ evs2) t
  = (sumContributions evs1 t + sumContributions evs2 t)%R.
Proof.
  unfold sumContributions. induction evs1 as [|e rest IH]; cbn [app map fold_right].
  - lra.
  - rewrite IH. lra.
Qed.

Lemma sumContributions_cons (t : time.Time) (event : CoffeeIntakeEvent)
    (evs : list CoffeeIntakeEvent) :
  sumContributions (event :: evs) t
  = (contribution t event + sumContributions evs t)%R.
Proof. reflexivity. Qed.

Lemma contribution_dose_after (t0 : time.Time) (doseMg : R) (h : Z) :
  0 <= h <= 10 ->
  contribution (t0 + h * time.Hour) (dose t0 doseMg)
  = (doseMg * Rpower 0.5 (IZR h / 5.0))%R.
Proof.
  intros Hh. rewrite contribution_past.
  - cbn [Time Amount dose]. rewrite hoursBetween_after by exact Hh.
    reflexivity.
  - cbn [Time dose]. rewrite Hour_value. lia.
Qed.

(** ** The decay law *)

(** C1. For an event with dose [C0] logged at [t0] and a query time [t]
    with [t >= t0], the loop body of the level calculation adds exactly
    [C0 * 0.5 ^ (elapsedHours / 5.0)] to the running total, where
    [elapsedHours = hoursBetween t t0], and that is the level of the
    snapshot holding this event alone. A single 95 mg dose at [t0] gives
    95 at [t0], 47.5 five hours later and 23.75 ten hours later. *)
Theorem C1_single_dose_decay :
  (forall (event : CoffeeIntakeEvent) (t : time.Time) (total : R) (w : World),
      Time event <= t ->
      exists w',
        decayBody t total event w
        = Some ((total + Amount event
                         * Rpower 0.5 (hoursBetween t (Time event) / 5.0))%R,
                w'))
  /\ (forall (event : CoffeeIntakeEvent) (t : time.Time),
         Time event <= t ->
         eval (CalculateCaffeineLevelAt t) [event]
         = Some (Amount event
                 * Rpower 0.5 (hoursBetween t (Time event) / 5.0))%R)
  /\ (forall t0 : time.Time,
         eval (CalculateCaffeineLevelAt t0) [dose t0 95] = Some 95%R
         /\ eval (CalculateCaffeineLevelAt (t0 + 5 * time.Hour)) [dose t0 95]
            = Some 47.5%R
         /\ eval (CalculateCaffeineLevelAt (t0 + 10 * time.Hour)) [dose t0 95]
            = Some 23.75%R).
Proof.
  split; [|split].
  - intros event t total w Hle.
    unfold decayBody. cbv zeta. fold (hoursBetween t (Time event)).
    destruct (Rlt_dec (hoursBetween t (Time event)) 0) as [Hneg | _].
    + apply hoursBetween_neg_iff in Hneg. lia.
    + eexists. reflexivity.
  - intros event t Hle.
    rewrite eval_CalculateCaffeineLevelAt, sumContributions_single.
    rewrite contribution_past by exact Hle. reflexivity.
  - intros t0. rewrite !eval_CalculateCaffeineLevelAt.
    rewrite !sumContributions_single.
    replace t0 with (t0 + 0 * time.Hour) at 1 by lia.
    rewrite !contribution_dose_after by lia.
    replace (0 / 5.0)%R with 0%R by lra.
    replace (5 / 5.0)%R with 1%R by lra.
    replace (10 / 5.0)%R with 2%R by lra.
    rewrite Rpower_half_0, Rpower_half_1, Rpower_half_2.
    repeat split; f_equal; lra.
Qed.

Lemma C1_single_dose_decay_witness :
  Time (dose 0 95) <= 18000000000000
  /\ eval (CalculateCaffeineLevelAt 18000000000000) [dose 0 95]
     = Some (Amount (dose 0 95)
             * Rpower 0.5 (hoursBetween 18000000000000 (Time (dose 0 95))
                           / 5.0))%R.
Proof.
  assert (H : Time (dose 0 95) <= 18000000000000) by (cbn; lia).
  split; [exact H|].
  exact (proj1 (proj2 C1_single_dose_decay) (dose 0 95) 18000000000000 H).
Defined.

(** C2. The level returned for a snapshot at [t] is the sum of the
    per-event contributions of the decay law; it is 0 for the empty
    snapshot; two 95 mg doses at [t0] and [t0 + 1h] give
    [95 * 0.5 ^ (1/5) + 95] at [t0 + 1h]. *)
Theorem C2_level_is_sum_of_contributions :
  (forall (snapshot : list CoffeeIntakeEvent) (t : time.Time),
      eval (CalculateCaffeineLevelAt t) snapshot
      = Some (sumContributions snapshot t))
  /\ (forall t : time.Time,
         eval (CalculateCaffeineLevelAt t) [] = Some 0%R)
  /\ (forall t0 : time.Time,
         eval (CalculateCaffeineLevelAt (t0 + 1 * time.Hour))
              [dose t0 95; dose (t0 + 1 * time.Hour) 95]
         = Some (95 * Rpower 0.5 (1 / 5) + 95)%R).
Proof.
  split; [|split].
  - intros snapshot t. apply eval_CalculateCaffeineLevelAt.
  - intros t. rewrite eval_CalculateCaffeineLevelAt. reflexivity.
  - intros t0. rewrite eval_CalculateCaffeineLevelAt.
    rewrite sumContributions_cons, sumContributions_single.
    rewrite (contribution_dose_after t0 95 1) by lia.
    replace (t0 + 1 * time.Hour) with (t0 + 1 * time.Hour + 0 * time.Hour)
      at 1 by lia.
    rewrite (contribution_dose_after (t0 + 1 * time.Hour) 95 0) by lia.
    replace (0 / 5.0)%R with 0%R by lra.
    replace (1 / 5.0)%R with (1 / 5)%R by lra.
    rewrite Rpower_half_0. f_equal. lra.
Qed.

(** C3. An event whose timestamp is strictly after the query time leaves
    the running total of the level calculation unchanged (it adds
    exactly 0, nothing negative), the loop body returns normally, and
    the level of a snapshot is the level of the snapshot without that
    event. *)
Theorem C3_future_event_contributes_zero :
  (forall (event : CoffeeIntakeEvent) (t : time.Time) (total : R) (w : World),
      t < Time event ->
      decayBody t total event w = Some (total, w))
  /\ (forall (before after : list CoffeeIntakeEvent)
             (event : CoffeeIntakeEvent) (t : time.Time),
         t < Time event ->
         exists level : R,
           eval (CalculateCaffeineLevelAt t) (before ++ event :: after)
           = Some level
           /\ eval (CalculateCaffeineLevelAt t) (before ++ after)
              = Some level).
Proof.
  split.
  - intros event t total w Hlt.
    unfold decayBody. cbv zeta. fold (hoursBetween t (Time event)).
    destruct (Rlt_dec (hoursBetween t (Time event)) 0) as [_ | Hn].
    + reflexivity.
    + exfalso. apply Hn, hoursBetween_neg_iff, Hlt.
  - intros before after event t Hlt.
    exists (sumContributions (before ++ after) t).
    rewrite !eval_CalculateCaffeineLevelAt. split; [|reflexivity].
    rewrite !sumContributions_app, sumContributions_cons.
    rewrite contribution_future by exact Hlt. f_equal. lra.
Qed.

Lemma C3_future_event_contributes_zero_witness :
  0 < Time (dose 60000000000 95)
  /\ exists level : R,
       eval (CalculateCaffeineLevelAt 0) ([dose 0 95] ++ dose 60000000000 95 :: [])
       = Some level
       /\ eval (CalculateCaffeineLevelAt 0) ([dose 0 95] ++ []) = Some level.
Proof.
  assert (H : 0 < Time (dose 60000000000 95)) by (cbn; lia).
  split; [exact H|].
  exact (proj2 C3_future_event_contributes_zero
           [dose 0 95] [] (dose 60000000000 95) 0 H).
Defined.

(** ** Sign of the level *)

Lemma contribution_nonneg (t : time.Time) (event : CoffeeIntakeEvent) :
  (0 <= Amount event)%R -> (0 <= contribution t event)%R.
Proof.
  intros H. unfold contribution. cbv zeta.
  destruct (Rlt_dec _ 0); [lra|].
  apply Rmult_le_pos; [exact H|].
  left. apply Rpower_half_pos.
Qed.

Lemma sumContributions_nonneg (t : time.Time)
    (snapshot : list CoffeeIntakeEvent) :
  Forall (fun e => (0 <= Amount e)%R) snapshot ->
  (0 <= sumContributions snapshot t)%R.
Proof.
  induction 1 as [|e rest He _ IH].
  - unfold sumContributions. cbn. lra.
  - rewrite sumContributions_cons.
    pose proof (contribution_nonneg t e He). lra.
Qed.

(** C4, as stated, fails: a dose of -95 mg is accepted and yields the
    level -95 at the moment it is logged. *)
Lemma C4_negative_dose_counterexample :
  exec (AddDrink 0 (-95)) [] = Some [dose 0 (-95)]
  /\ exists level : R,
       eval (CalculateCaffeineLevelAt 0) [dose 0 (-95)] = Some level
       /\ (level < 0)%R.
Proof.
  split.
  - unfold exec. change {| tracker := _; log := [] |} with (world false [] []).
    rewrite AddDrink_run. reflexivity.
  - exists (-95)%R. split; [|lra].
    rewrite eval_CalculateCaffeineLevelAt, sumContributions_single.
    change 0 with (0 + 0 * time.Hour) at 1.
    rewrite contribution_dose_after by lia.
    replace (0 / 5.0)%R with 0%R by lra.
    rewrite Rpower_half_0. f_equal. lra.
Qed.

(** C4 (amended). For every snapshot whose dose amounts are all
    non-negative and every query time, the level calculation returns a
    level that is non-negative. *)
Theorem C4_level_nonneg_for_nonneg_doses
    (snapshot : list CoffeeIntakeEvent) (t : time.Time) :
  Forall (fun e => (0 <= Amount e)%R) snapshot ->
  exists level : R,
    eval (CalculateCaffeineLevelAt t) snapshot = Some level
    /\ (0 <= level)%R.
Proof.
  intros Hdoses. exists (sumContributions snapshot t). split.
  - apply eval_CalculateCaffeineLevelAt.
  - apply sumContributions_nonneg, Hdoses.
Qed.

Lemma C4_level_nonneg_for_nonneg_doses_witness :
  exists level : R,
    eval (CalculateCaffeineLevelAt 18000000000000) [dose 0 95; dose 0 0]
    = Some level
    /\ (0 <= level)%R.
Proof.
  apply (C4_level_nonneg_for_nonneg_doses [dose 0 95; dose 0 0]).
  repeat constructor; cbn; lra.
Defined.

(** ** Logging a dose *)

(** C10. Appending an event with a non-negative dose to an event list
    never lowers the level computed at any query time, whatever the
    event's timestamp; [AddDrink] appends exactly such an event. *)
Theorem C10_appending_nonneg_dose_never_lowers_level :
  (forall (s : list CoffeeIntakeEvent) (e : CoffeeIntakeEvent)
          (t : time.Time),
      (0 <= Amount e)%R ->
      exists before after : R,
        eval (CalculateCaffeineLevelAt t) s = Some before
        /\ eval (CalculateCaffeineLevelAt t) (s ++ [e]) = Some after
        /\ (before <= after)%R)
  /\ (forall (s : list CoffeeIntakeEvent) (now : time.Time) (amount : R),
         exec (AddDrink now amount) s = Some (s ++ [dose now amount])).
Proof.
  split.
  - intros s e t He.
    exists (sumContributions s t), (sumContributions (s ++ [e]) t).
    rewrite !eval_CalculateCaffeineLevelAt. repeat split.
    rewrite sumContributions_app, sumContributions_single.
    pose proof (contribution_nonneg t e He). lra.
  - intros s now amount. unfold exec.
    change {| tracker := _; log := [] |} with (world false s []).
    rewrite AddDrink_run. reflexivity.
Qed.

Lemma C10_appending_nonneg_dose_never_lowers_level_witness :
  (0 <= Amount (dose 3600000000000 95))%R
  /\ exists before after : R,
       eval (CalculateCaffeineLevelAt 18000000000000) [dose 0 95]
       = Some before
       /\ eval (CalculateCaffeineLevelAt 18000000000000)
               ([dose 0 95] ++ [dose 3600000000000 95])
          = Some after
       /\ (before <= after)%R.
Proof.
  assert (H : (0 <= Amount (dose 3600000000000 95))%R) by (cbn; lra).
  split; [exact H|].
  exact (proj1 C10_appending_nonneg_dose_never_lowers_level
           [dose 0 95] (dose 3600000000000 95) 18000000000000 H).
Defined.

(** ** The current level *)

(** C8. On every store and for every reading [now] of the clock, the
    current-level method of the first two programs returns what the
    level-at-time method of the third returns at [now], and the call
    returns. *)
Theorem C8_current_level_is_level_at_now
    (evs : list CoffeeIntakeEvent) (now : time.Time) :
  eval (CupTracker.CalculateCurrentCaffeineLevel now) evs
  = eval (CalculateCaffeineLevelAt now) evs
  /\ eval (DrinkTracker.CalculateCurrentCaffeineLevel now) evs
     = eval (CalculateCaffeineLevelAt now) evs
  /\ exists level : R,
       eval (CalculateCaffeineLevelAt now) evs = Some level.
Proof.
  split; [|split].
  - reflexivity.
  - reflexivity.
  - eexists. apply eval_CalculateCaffeineLevelAt.
Qed.

(** ** Decay between doses *)

Lemma contribution_antitone (t1 t2 : time.Time) (event : CoffeeIntakeEvent) :
  (0 <= Amount event)%R ->
  t1 <= t2 ->
  Time event <= t1 \/ t2 < Time event ->
  (contribution t2 event <= contribution t1 event)%R.
Proof.
  intros Hdose Hle [Hpast | Hfuture].
  - rewrite !contribution_past by lia.
    apply Rmult_le_compat_l; [exact Hdose|].
    apply Rpower_half_antitone.
    pose proof (hoursBetween_mono t1 t2 (Time event) Hle). lra.
  - rewrite !contribution_future by lia. lra.
Qed.

Lemma sumContributions_antitone (t1 t2 : time.Time)
    (snapshot : list CoffeeIntakeEvent) :
  t1 <= t2 ->
  Forall (fun e => (0 <= Amount e)%R) snapshot ->
  Forall (fun e => Time e <= t1 \/ t2 < Time e) snapshot ->
  (sumContributions snapshot t2 <= sumContributions snapshot t1)%R.
Proof.
  intros Hle Hdoses. induction Hdoses as [|e rest He _ IH]; intros Hgap.
  - unfold sumContributions. cbn. lra.
  - inversion Hgap as [|? ? Hgap_e Hgap_rest]; subst.
    rewrite !sumContributions_cons.
    pose proof (contribution_antitone t1 t2 e He Hle Hgap_e).
    specialize (IH Hgap_rest). lra.
Qed.

(** C5, as stated, fails: with a dose of -95 mg at 0 and the next event
    at 20h, the level rises from -47.5 at 5h to -23.75 at 10h, two query
    times between the same two consecutive event timestamps. *)
Lemma C5_negative_dose_counterexample :
  consecutiveTimestamps [dose 0 (-95); dose 72000000000000 95]
                        0 72000000000000
  /\ 0 < 18000000000000 /\ 18000000000000 <= 36000000000000
  /\ 36000000000000 < 72000000000000
  /\ exists level1 level2 : R,
       eval (CalculateCaffeineLevelAt 18000000000000)
            [dose 0 (-95); dose 72000000000000 95] = Some level1
       /\ eval (CalculateCaffeineLevelAt 36000000000000)
               [dose 0 (-95); dose 72000000000000 95] = Some level2
       /\ (level1 < level2)%R.
Proof.
  split; [|split; [lia|split; [lia|split; [lia|]]]].
  - unfold consecutiveTimestamps. cbn [map Time dose].
    repeat split.
    + left. reflexivity.
    + right. left. reflexivity.
    + repeat constructor; cbn [Time dose]; lia.
  - exists (-47.5)%R, (-23.75)%R.
    rewrite !eval_CalculateCaffeineLevelAt.
    rewrite !sumContributions_cons.
    rewrite !(contribution_future _ (dose 72000000000000 95))
      by (cbn [Time dose]; lia).
    change 18000000000000 with (0 + 5 * time.Hour).
    change 36000000000000 with (0 + 10 * time.Hour).
    rewrite !contribution_dose_after by lia.
    replace (5 / 5.0)%R with 1%R by lra.
    replace (10 / 5.0)%R with 2%R by lra.
    rewrite Rpower_half_1, Rpower_half_2.
    unfold sumContributions. cbn [map fold_right].
    repeat split; try (f_equal; lra); lra.
Qed.

(** C5 (amended). For every snapshot whose dose amounts are all
    non-negative and every pair of query times [t1 <= t2] lying strictly
    between the same two consecutive event timestamps, the level at [t1]
    is at least the level at [t2]. *)
Theorem C5_level_nonincreasing_between_doses
    (snapshot : list CoffeeIntakeEvent) (ta tb t1 t2 : time.Time) :
  Forall (fun e => (0 <= Amount e)%R) snapshot ->
  consecutiveTimestamps snapshot ta tb ->
  ta < t1 -> t1 <= t2 -> t2 < tb ->
  exists level1 level2 : R,
    eval (CalculateCaffeineLevelAt t1) snapshot = Some level1
    /\ eval (CalculateCaffeineLevelAt t2) snapshot = Some level2
    /\ (level2 <= level1)%R.
Proof.
  intros Hdoses (_ & _ & _ & Hgap) Ha Hle Hb.
  exists (sumContributions snapshot t1), (sumContributions snapshot t2).
  rewrite !eval_CalculateCaffeineLevelAt. repeat split.
  apply sumContributions_antitone; [exact Hle | exact Hdoses |].
  eapply Forall_impl; [|exact Hgap].
  cbv beta. intros e [He | He]; [left | right]; lia.
Qed.

Lemma C5_level_nonincreasing_between_doses_witness :
  exists level1 level2 : R,
    eval (CalculateCaffeineLevelAt 18000000000000)
         [dose 0 95; dose 72000000000000 40] = Some level1
    /\ eval (CalculateCaffeineLevelAt 36000000000000)
            [dose 0 95; dose 72000000000000 40] = Some level2
    /\ (level2 <= level1)%R.
Proof.
  apply (C5_level_nonincreasing_between_doses
           [dose 0 95; dose 72000000000000 40] 0 72000000000000).
  - repeat constructor; cbn; lra.
  - unfold consecutiveTimestamps. cbn [map Time dose].
    repeat split.
    + left. reflexivity.
    + right. left. reflexivity.
    + repeat constructor; cbn [Time dose]; lia.
  - lia.
  - lia.
  - lia.
Defined.

(** ** The forecast *)

Lemma forecastIndices_length : List.length forecastIndices = 48%nat.
Proof. reflexivity. Qed.

Lemma forecastIndices_nth (i : nat) :
  (i < 48)%nat -> nth_error forecastIndices i = Some (Z.of_nat i).
Proof.
  intros Hi. unfold forecastIndices.
  rewrite nth_error_map, nth_error_seq.
  destruct (Nat.ltb_spec i 48); [reflexivity | lia].
Qed.

Lemma forecast_nth (loc : time.Location) (evs : list CoffeeIntakeEvent)
    (now : time.Time) (i : nat) :
  (i < 48)%nat ->
  nth_error (map (forecastPoint loc evs now) forecastIndices) i
  = Some (forecastPoint loc evs now (Z.of_nat i)).
Proof.
  intros Hi. rewrite nth_error_map, forecastIndices_nth by exact Hi.
  reflexivity.
Qed.

(** C6. On every store and for every reading [now] of the clock,
    [GenerateForecast] returns exactly 48 points; the point of index [i]
    (from 0 to 47) has time [now + i * 30 minutes]; hence the first
    point is at [now] and consecutive points are exactly 30 minutes
    apart. *)
Theorem C6_forecast_has_48_points_every_30_minutes
    (loc : time.Location) (evs : list CoffeeIntakeEvent) (now : time.Time) :
  exists forecast : list Point.ForecastPoint,
    eval (GenerateForecast loc now) evs = Some forecast
    /\ List.length forecast = 48%nat
    /\ (forall i : nat,
           (i < 48)%nat ->
           exists p, nth_error forecast i = Some p
                     /\ Point.Time p = now + Z.of_nat i * (30 * time.Minute))
    /\ (exists p, nth_error forecast 0 = Some p /\ Point.Time p = now)
    /\ (forall (i : nat) (p q : Point.ForecastPoint),
           nth_error forecast i = Some p ->
           nth_error forecast (S i) = Some q ->
           Point.Time q - Point.Time p = 30 * time.Minute).
Proof.
  exists (map (forecastPoint loc evs now) forecastIndices).
  split; [apply eval_GenerateForecast|].
  split; [rewrite length_map; apply forecastIndices_length|].
  split; [|split].
  - intros i Hi. eexists. split; [apply forecast_nth, Hi|].
    unfold forecastPoint. cbn [Point.Time]. lia.
  - eexists. split; [apply forecast_nth; lia|].
    unfold forecastPoint. cbn [Point.Time]. lia.
  - intros i p q Hp Hq.
    assert (Hi : (S i < 48)%nat).
    { assert (Hsome : nth_error (map (forecastPoint loc evs now) forecastIndices)
                        (S i) <> None) by congruence.
      apply nth_error_Some in Hsome.
      rewrite length_map, forecastIndices_length in Hsome. exact Hsome. }
    rewrite forecast_nth in Hp by lia. rewrite forecast_nth in Hq by lia.
    injection Hp as <-. injection Hq as <-.
    unfold forecastPoint. cbn [Point.Time]. lia.
Qed.

Lemma C6_forecast_has_48_points_every_30_minutes_witness :
  (47 < 48)%nat
  /\ exists (forecast : list Point.ForecastPoint) (p : Point.ForecastPoint),
       eval (GenerateForecast time.UTC 0) [dose 0 95] = Some forecast
       /\ List.length forecast = 48%nat
       /\ nth_error forecast 47 = Some p
       /\ Point.Time p = 0 + Z.of_nat 47 * (30 * time.Minute).
Proof.
  assert (H : (47 < 48)%nat) by lia.
  split; [exact H|].
  destruct (C6_forecast_has_48_points_every_30_minutes
              time.UTC [dose 0 95] 0)
    as (forecast & Heval & Hlen & Hnth & _).
  destruct (Hnth 47%nat H) as (p & Hp & Htime).
  exists forecast, p. repeat split; assumption.
Defined.

(** What the inner loop of the forecast decides: the flag is set exactly
    when some event renders to the same hour and minute of the day as
    the sample time. *)
Lemma findDrink_flag (loc : time.Location) (evs : list CoffeeIntakeEvent)
    (ti : time.Time) :
  fst (findDrink loc evs ti) = true
  <-> exists e, In e evs
                /\ time.Format_15_04 loc (Time e) = time.Format_15_04 loc ti.
Proof.
  induction evs as [|e rest IH]; cbn [findDrink].
  - split; [discriminate | intros (e & [] & _)].
  - destruct (String.eqb_spec (time.Format_15_04 loc (Time e))
                              (time.Format_15_04 loc ti)) as [Heq | Hne].
    + cbn [fst]. split; [|reflexivity].
      intros _. exists e. split; [left; reflexivity | exact Heq].
    + rewrite IH. split.
      * intros (e' & Hin & Heq). exists e'. split; [right; exact Hin | exact Heq].
      * intros (e' & [-> | Hin] & Heq); [contradiction|].
        exists e'. split; assumption.
Qed.

Lemma hour_of_minute (u v : Z) :
  u / 60 = v / 60 -> u mod 86400 / 3600 = v mod 86400 / 3600.
Proof. intros H. Z.div_mod_to_equations. lia. Qed.

Lemma minute_of_minute (u v : Z) :
  u / 60 = v / 60 ->
  u mod 86400 mod 3600 / 60 = v mod 86400 mod 3600 / 60.
Proof. intros H. Z.div_mod_to_equations. lia. Qed.

Lemma minute_of_truncation (a b : Z) :
  a - a mod 60000000000 = b - b mod 60000000000 ->
  a / 1000000000 / 60 = b / 1000000000 / 60.
Proof. intros H. Z.div_mod_to_equations. lia. Qed.

(** In UTC, two instants of the same minute render to the same hour and
    minute of the day, so an event in the minute of a sample time always
    sets the flag. *)
Lemma sameMinute_same_clock (a b : time.Time) :
  sameMinute a b = true ->
  time.Format_15_04 time.UTC a = time.Format_15_04 time.UTC b.
Proof.
  unfold sameMinute, time.TruncateMinute. intros H.
  apply Z.eqb_eq in H.
  change time.Minute with 60000000000 in H.
  apply minute_of_truncation in H.
  unfold time.Format_15_04, time.clockHour, time.clockMinute,
    time.secondsOfDay, time.UTC. cbn [time.zoneOffset]. cbv zeta.
  change time.Second with 1000000000.
  rewrite !Z.add_0_r.
  rewrite (hour_of_minute _ _ H), (minute_of_minute _ _ H).
  reflexivity.
Qed.

Lemma firstIntakeInMinute_flagged (evs : list CoffeeIntakeEvent)
    (ti : time.Time) (e : CoffeeIntakeEvent) :
  firstIntakeInMinute evs ti = Some e ->
  fst (findDrink time.UTC evs ti) = true.
Proof.
  intros H. apply findDrink_flag.
  induction evs as [|e' rest IH]; cbn [firstIntakeInMinute] in H.
  - discriminate.
  - destruct (sameMinute (Time e') ti) eqn:Hsame.
    + exists e'. split; [left; reflexivity|].
      apply sameMinute_same_clock, Hsame.
    + destruct (IH H) as (e0 & Hin & Heq).
      exists e0. split; [right; exact Hin | exact Heq].
Qed.

(** C7, evaluated. In UTC, with one 95 mg drink logged on 2024-01-01 at
    08:15:00 and the forecast generated at 08:45:00 the same day, the
    point of index 47 lies on 2024-01-02 at 08:15:00, 24 hours after the
    drink; it is flagged as having a drink of 95 mg, although no event
    lies in the minute of that point. *)
Theorem C7_forecast_flags_drink_of_another_day :
  exists (forecast : list Point.ForecastPoint) (p : Point.ForecastPoint),
    eval (GenerateForecast time.UTC 1704098700000000000)
         [dose 1704096900000000000 95]
    = Some forecast
    /\ nth_error forecast 47 = Some p
    /\ Point.Time p = 1704183300000000000
    /\ Point.Time p - 1704096900000000000 = 24 * time.Hour
    /\ Point.HasDrink p = true
    /\ Point.DrinkAmount p = 95%R
    /\ firstIntakeInMinute [dose 1704096900000000000 95] (Point.Time p)
       = None.
Proof.
  exists (map (forecastPoint time.UTC [dose 1704096900000000000 95]
                             1704098700000000000)
              forecastIndices).
  eexists. split; [apply eval_GenerateForecast|].
  split; [apply (forecast_nth _ _ _ 47); lia|].
  assert (Hti : 1704098700000000000 + Z.of_nat 47 * 30 * time.Minute
                = 1704183300000000000) by reflexivity.
  assert (Hfmt : time.Format_15_04 time.UTC 1704096900000000000
                 = time.Format_15_04 time.UTC 1704183300000000000)
    by (vm_compute; reflexivity).
  unfold forecastPoint. cbv zeta.
  cbn [Point.Time Point.HasDrink Point.DrinkAmount].
  rewrite Hti. cbn [findDrink Time Amount dose].
  rewrite <- Hfmt, String.eqb_refl. cbn [fst snd].
  repeat split.
Qed.

(** ** The lock discipline *)

Lemma powLog_locked (t : time.Time) (evs : list CoffeeIntakeEvent) :
  Forall (fun e => held e = true) (powLog t evs).
Proof.
  induction evs as [|event rest IH].
  - constructor.
  - rewrite powLog_cons. apply Forall_app. split; [|exact IH].
    unfold powLog. cbn [flat_map].
    destruct (Rlt_dec _ 0); repeat constructor.
Qed.

Lemma levelLog_locked (t : time.Time) (evs : list CoffeeIntakeEvent) :
  Forall (fun e => held e = true) (levelLog t evs).
Proof.
  destruct evs as [|event rest]; cbn [levelLog].
  - repeat constructor.
  - do 2 (constructor; [reflexivity|]). apply powLog_locked.
Qed.

Lemma trace_CalculateCaffeineLevelAt (t : time.Time)
    (evs : list CoffeeIntakeEvent) :
  trace (CalculateCaffeineLevelAt t) evs = Some (levelLog t evs).
Proof.
  unfold trace. change {| tracker := _; log := [] |} with (world false evs []).
  rewrite CalculateCaffeineLevelAt_run. reflexivity.
Qed.

Lemma powLog_past (t : time.Time) (event : CoffeeIntakeEvent) :
  Time event <= t -> powLog t [event] = [locked CallPow].
Proof.
  intros H. unfold powLog. cbn [flat_map].
  destruct (Rlt_dec _ 0) as [Hneg | _]; [|reflexivity].
  apply hoursBetween_neg_iff in Hneg. lia.
Qed.

(** C9, as stated, fails: the level calculation on a store holding one
    past drink calls [math.Pow] with the mutex held, so the decay
    computation does not run outside the lock. *)
Lemma C9_decay_inside_lock_counterexample :
  trace (CalculateCaffeineLevelAt 0) [dose 0 95]
  = Some [locked ReadEvents; locked ReadEvents; locked CallPow]
  /\ ~ specifiedDiscipline
         [locked ReadEvents; locked ReadEvents; locked CallPow].
Proof.
  split.
  - rewrite trace_CalculateCaffeineLevelAt. cbn [levelLog].
    rewrite powLog_past by (cbn; lia). reflexivity.
  - unfold specifiedDiscipline. intros H.
    inversion H as [|? ? _ H1]; subst.
    inversion H1 as [|? ? _ H2]; subst.
    inversion H2 as [|? ? (_ & _ & Hdecay) _]; subst.
    specialize (Hdecay eq_refl). discriminate Hdecay.
Qed.

(** The forecast reads the event sequence once per sample point without
    holding the mutex. *)
Lemma GenerateForecast_reads_events_unlocked (loc : time.Location)
    (now : time.Time) (evs : list CoffeeIntakeEvent) :
  exists lg, trace (GenerateForecast loc now) evs = Some lg
             /\ In (unlocked ReadEvents) lg.
Proof.
  eexists. split; [apply trace_GenerateForecast|].
  unfold forecastLog, forecastIndices. cbn [seq map flat_map].
  apply in_or_app. left. apply in_or_app. right. left. reflexivity.
Qed.

(** C9 (amended). [AddDrink] (and [AddCoffee]), the level calculation
    (in its three versions) and [GetEvents] take the mutex on entry and
    release it on return; every access they make to the event sequence
    (the append and the reads) happens with the mutex held, and so does
    the whole decay computation of the level calculation, which calls
    [math.Pow] once per event not in the future while it holds the
    mutex. *)
Theorem C9_methods_run_under_lock
    (evs : list CoffeeIntakeEvent) (now t : time.Time) (amount : R) :
  runsUnderLock (AddDrink now amount) evs
  /\ runsUnderLock (CupTracker.AddCoffee now) evs
  /\ runsUnderLock (CalculateCaffeineLevelAt t) evs
  /\ runsUnderLock (CupTracker.CalculateCurrentCaffeineLevel now) evs
  /\ runsUnderLock (DrinkTracker.CalculateCurrentCaffeineLevel now) evs
  /\ runsUnderLock GetEvents evs
  /\ trace (AddDrink now amount) evs
     = Some [locked ReadEvents; locked WriteEvents;
             locked ReadEvents; locked CallPrintf]
  /\ trace (CalculateCaffeineLevelAt t) evs
     = Some (match evs with
             | [] => [locked ReadEvents]
             | _ :: _ => locked ReadEvents :: locked ReadEvents
                         :: powLog t evs
             end)
  /\ trace GetEvents evs = Some [locked ReadEvents].
Proof.
  assert (Hadd : forall a, runsUnderLock (AddDrink now a) evs).
  { intros a. unfold runsUnderLock. do 3 eexists.
    split; [apply AddDrink_run|]. repeat constructor. }
  assert (Hlevel : forall u, runsUnderLock (CalculateCaffeineLevelAt u) evs).
  { intros u. unfold runsUnderLock. do 3 eexists.
    split; [apply CalculateCaffeineLevelAt_run|].
    cbn [app]. apply levelLog_locked. }
  split; [apply Hadd|].
  split; [exact (Hadd CupTracker.caffeinePerCupMg)|].
  split; [apply Hlevel|].
  split; [exact (Hlevel now)|].
  split; [exact (Hlevel now)|].
  split.
  { unfold runsUnderLock. do 3 eexists.
    split; [apply GetEvents_run|]. repeat constructor. }
  split.
  { unfold trace.
    change {| tracker := _; log := [] |} with (world false evs []).
    rewrite AddDrink_run. reflexivity. }
  split; [apply trace_CalculateCaffeineLevelAt|].
  unfold trace. change {| tracker := _; log := [] |} with (world false evs []).
  rewrite GetEvents_run. reflexivity.
Qed.

(** ** Sequences of calls on the store *)

Lemma bind_run {A B} (m : M A) (k : A -> M B) (w w' : World) (a : A) :
  m w = Some (a, w') -> bind m k w = k a w'.
Proof. intros H. unfold bind. rewrite H. reflexivity. Qed.

Lemma GenerateForecast_run (loc : time.Location) (now : time.Time)
    (evs : list CoffeeIntakeEvent) (lg : list Entry) :
  GenerateForecast loc now (world false evs lg)
  = Some (map (forecastPoint loc evs now) forecastIndices,
          world false evs (lg ++ forecastLog evs now forecastIndices)).
Proof.
  unfold GenerateForecast. cbv zeta. rewrite forecastLoop_run. reflexivity.
Qed.

Lemma perform_run (c : Call) (evs : list CoffeeIntakeEvent)
    (lg : list Entry) :
  exists lg', perform c (world false evs lg)
              = Some (tt, world false (evs ++ logged [c]) lg').
Proof.
  destruct c as [now amount | t | loc now |]; cbn [perform logged flat_map].
  - eexists. rewrite AddDrink_run. reflexivity.
  - eexists. rewrite (bind_run _ _ _ _ _ (CalculateCaffeineLevelAt_run _ _ _)).
    rewrite !app_nil_r. reflexivity.
  - eexists. rewrite (bind_run _ _ _ _ _ (GenerateForecast_run _ _ _ _)).
    rewrite !app_nil_r. reflexivity.
  - eexists. rewrite (bind_run _ _ _ _ _ (GetEvents_run _ _)).
    rewrite !app_nil_r. reflexivity.
Qed.

Lemma logged_cons (c : Call) (cs : list Call) :
  logged (c :: cs) = logged [c] ++ logged cs.
Proof. unfold logged. cbn [flat_map]. rewrite app_nil_r. reflexivity. Qed.

Lemma performAll_run (cs : list Call) :
  forall (evs : list CoffeeIntakeEvent) (lg : list Entry),
  exists lg', performAll cs (world false evs lg)
              = Some (tt, world false (evs ++ logged cs) lg').
Proof.
  induction cs as [|c rest IH]; intros evs lg.
  - exists lg. cbn. rewrite app_nil_r. reflexivity.
  - destruct (perform_run c evs lg) as (lg1 & H1).
    destruct (IH (evs ++ logged [c]) lg1) as (lg2 & H2).
    exists lg2. cbn [performAll].
    rewrite (bind_run _ _ _ _ _ H1), H2, (logged_cons c rest), app_assoc.
    reflexivity.
Qed.

Lemma logged_length (cs : list Call) :
  List.length (logged cs)
  = List.length (filter (fun c => match c with
                                  | CallAddDrink _ _ => true
                                  | _ => false
                                  end) cs).
Proof.
  induction cs as [|c rest IH]; [reflexivity|].
  rewrite (logged_cons c rest), length_app, IH.
  destruct c; reflexivity.
Qed.

(** X1. Whatever sequence of calls ([AddDrink], the level calculation,
    the forecast, [GetEvents]) is made on a store whose mutex is free,
    every call returns, the mutex is free again at the end, and
    [GetEvents] then returns the initial events followed by one event
    per [AddDrink], in call order, with the time and amount of that
    call; the other methods add and remove nothing. The history is as
    many events longer as there were [AddDrink] calls. *)
Theorem X1_history_is_append_only
    (cs : list Call) (evs : list CoffeeIntakeEvent) :
  (exists lg, outcome (performAll cs) evs = Some (tt, evs ++ logged cs, lg))
  /\ eval (performAll cs ;;; GetEvents) evs = Some (evs ++ logged cs)
  /\ List.length (evs ++ logged cs)
     = (List.length evs
        + List.length (filter (fun c => match c with
                                        | CallAddDrink _ _ => true
                                        | _ => false
                                        end) cs))%nat.
Proof.
  destruct (performAll_run cs evs []) as (lg & Hrun).
  split; [|split].
  - exists lg. unfold outcome. rewrite Hrun. reflexivity.
  - unfold eval. change {| tracker := _; log := [] |} with (world false evs []).
    rewrite (bind_run _ _ _ _ _ Hrun), GetEvents_run. reflexivity.
  - rewrite length_app, logged_length. reflexivity.
Qed.

(** ** Logging and then asking for the level *)

Lemma eval_after_AddDrink {A} (now : time.Time) (amount : R) (m : M A)
    (evs : list CoffeeIntakeEvent) :
  eval (AddDrink now amount ;;; m) evs
  = match m (world false (evs ++ [dose now amount])
               [locked ReadEvents; locked WriteEvents;
                locked ReadEvents; locked CallPrintf]) with
    | Some (a, _) => Some a
    | None => None
    end.
Proof.
  unfold eval. change {| tracker := _; log := [] |} with (world false evs []).
  rewrite (bind_run _ _ _ _ _ (AddDrink_run now amount evs [])).
  reflexivity.
Qed.

(** X2. Logging a drink of any amount at [now] and then asking for the
    level at [t] gives the level the store had at [t] before, unchanged
    when [t] is before [now], and increased by
    [amount * 0.5 ^ (hoursBetween t now / 5.0)] otherwise. *)
Theorem X2_level_after_AddDrink
    (evs : list CoffeeIntakeEvent) (now t : time.Time) (amount : R) :
  exists before : R,
    eval (CalculateCaffeineLevelAt t) evs = Some before
    /\ eval (AddDrink now amount ;;; CalculateCaffeineLevelAt t) evs
       = Some (if t <? now then before
               else before
                    + amount * Rpower 0.5 (hoursBetween t now / 5.0))%R.
Proof.
  exists (sumContributions evs t).
  split; [apply eval_CalculateCaffeineLevelAt|].
  rewrite eval_after_AddDrink, CalculateCaffeineLevelAt_run.
  rewrite sumContributions_app, sumContributions_single.
  destruct (Z.ltb_spec t now) as [Hlt | Hge].
  - rewrite contribution_future by exact Hlt. f_equal. lra.
  - rewrite contribution_past by exact Hge. reflexivity.
Qed.

(** X3. In the first program, logging a coffee at [now] and asking for
    the current level at that same instant gives the level the store had
    at [now] before, plus 95. *)
Theorem X3_level_right_after_AddCoffee
    (evs : list CoffeeIntakeEvent) (now : time.Time) :
  exists before : R,
    eval (CupTracker.CalculateCurrentCaffeineLevel now) evs = Some before
    /\ eval (CupTracker.AddCoffee now
             ;;; CupTracker.CalculateCurrentCaffeineLevel now) evs
       = Some (before + 95)%R.
Proof.
  exists (sumContributions evs now).
  split; [apply (eval_CalculateCaffeineLevelAt now evs)|].
  change (CupTracker.AddCoffee now)
    with (AddDrink now CupTracker.caffeinePerCupMg).
  change (CupTracker.CalculateCurrentCaffeineLevel now)
    with (CalculateCaffeineLevelAt now).
  rewrite eval_after_AddDrink, CalculateCaffeineLevelAt_run.
  rewrite sumContributions_app, sumContributions_single.
  replace now with (now + 0 * time.Hour) at 2 by lia.
  rewrite contribution_dose_after by lia.
  replace (0 / 5.0)%R with 0%R by lra.
  rewrite Rpower_half_0. unfold CupTracker.caffeinePerCupMg.
  f_equal. lra.
Qed.

(** X4. When every event of the store is later than the query time, the
    level is exactly 0, whatever the amounts. *)
Theorem X4_level_before_every_event_is_zero
    (evs : list CoffeeIntakeEvent) (t : time.Time) :
  Forall (fun e => t < Time e) evs ->
  eval (CalculateCaffeineLevelAt t) evs = Some 0%R.
Proof.
  intros Hfuture. rewrite eval_CalculateCaffeineLevelAt. f_equal.
  induction Hfuture as [|e rest He _ IH].
  - reflexivity.
  - rewrite sumContributions_cons, IH, contribution_future by exact He.
    lra.
Qed.

Lemma X4_level_before_every_event_is_zero_witness :
  eval (CalculateCaffeineLevelAt 0)
       [dose 60000000000 95; dose 120000000000 (-40)] = Some 0%R.
Proof.
  apply X4_level_before_every_event_is_zero.
  repeat constructor; cbn; lia.
Defined.

(** ** Decay over time *)

Lemma hoursBetween_shift (t d t0 : time.Time) :
  t0 <= t -> 0 <= d -> t + d - t0 <= time.maxDuration ->
  hoursBetween (t + d) t0 = (hoursBetween t t0 + time.Hours d)%R.
Proof.
  intros Hpast Hd Hfit. unfold hoursBetween.
  rewrite !Sub_exact by (unfold time.minDuration in *; lia).
  rewrite !Hours_ratio.
  replace (t + d - t0) with ((t - t0) + d) by lia.
  rewrite plus_IZR. lra.
Qed.

Lemma Hours_nonneg (d : time.Duration) :
  0 <= d -> (0 <= time.Hours d)%R.
Proof.
  intros H. rewrite Hours_ratio. apply IZR_le in H. lra.
Qed.

Lemma contribution_shift (t d : time.Time) (event : CoffeeIntakeEvent) :
  Time event <= t -> 0 <= d -> t + d - Time event <= time.maxDuration ->
  contribution (t + d) event
  = (contribution t event * Rpower 0.5 (time.Hours d / 5.0))%R.
Proof.
  intros Hpast Hd Hfit.
  rewrite !contribution_past by lia.
  rewrite hoursBetween_shift by assumption.
  replace ((hoursBetween t (Time event) + time.Hours d) / 5.0)%R
    with (hoursBetween t (Time event) / 5.0 + time.Hours d / 5.0)%R by lra.
  rewrite Rpower_plus. lra.
Qed.

Lemma sumContributions_shift (evs : list CoffeeIntakeEvent)
    (t : time.Time) (d : time.Duration) :
  0 <= d ->
  Forall (fun e => Time e <= t /\ t + d - Time e <= time.maxDuration) evs ->
  sumContributions evs (t + d)
  = (sumContributions evs t * Rpower 0.5 (time.Hours d / 5.0))%R.
Proof.
  intros Hd Hevs. induction Hevs as [|e rest [Hpast Hfit] _ IH].
  - unfold sumContributions. cbn. lra.
  - rewrite !sumContributions_cons, IH, contribution_shift by assumption.
    lra.
Qed.

(** X5. When no event of the store is later than [t], waiting a further
    [d >= 0] multiplies the level by [0.5 ^ (d.Hours() / 5.0)], whatever
    the number, the times and the amounts of the events; in particular
    five hours later the level is half of what it was. (The elapsed
    times must fit a [Duration]; [float64] is taken as exact.) *)
Theorem X5_level_decays_by_half_life :
  (forall (evs : list CoffeeIntakeEvent) (t : time.Time) (d : time.Duration),
      0 <= d ->
      Forall (fun e => Time e <= t /\ t + d - Time e <= time.maxDuration)
             evs ->
      exists level : R,
        eval (CalculateCaffeineLevelAt t) evs = Some level
        /\ eval (CalculateCaffeineLevelAt (t + d)) evs
           = Some (level * Rpower 0.5 (time.Hours d / 5.0))%R)
  /\ (forall (evs : list CoffeeIntakeEvent) (t : time.Time),
         Forall (fun e => Time e <= t
                          /\ t + 5 * time.Hour - Time e <= time.maxDuration)
                evs ->
         exists level : R,
           eval (CalculateCaffeineLevelAt t) evs = Some level
           /\ eval (CalculateCaffeineLevelAt (t + 5 * time.Hour)) evs
              = Some (level / 2)%R).
Proof.
  split.
  - intros evs t d Hd Hevs. exists (sumContributions evs t).
    rewrite !eval_CalculateCaffeineLevelAt.
    split; [reflexivity|].
    rewrite sumContributions_shift by assumption. reflexivity.
  - intros evs t Hevs. exists (sumContributions evs t).
    rewrite !eval_CalculateCaffeineLevelAt.
    split; [reflexivity|].
    rewrite sumContributions_shift by (rewrite ?Hour_value; assumption || lia).
    rewrite Hours_ratio, Hour_value.
    replace (IZR (5 * 3600000000000) / 3600000000000 / 5.0)%R with 1%R.
    + rewrite Rpower_half_1. f_equal. lra.
    + rewrite mult_IZR. lra.
Qed.

Lemma X5_level_decays_by_half_life_witness :
  (exists level : R,
      eval (CalculateCaffeineLevelAt 3600000000000)
           [dose 0 95; dose 1800000000000 40] = Some level
      /\ eval (CalculateCaffeineLevelAt (3600000000000 + 7200000000000))
              [dose 0 95; dose 1800000000000 40]
         = Some (level * Rpower 0.5 (time.Hours 7200000000000%Z / 5.0))%R)
  /\ (exists level : R,
         eval (CalculateCaffeineLevelAt 3600000000000)
              [dose 0 95; dose 1800000000000 40] = Some level
         /\ eval (CalculateCaffeineLevelAt (3600000000000 + 5 * time.Hour))
                 [dose 0 95; dose 1800000000000 40]
            = Some (level / 2)%R).
Proof.
  split.
  - apply (proj1 X5_level_decays_by_half_life
             [dose 0 95; dose 1800000000000 40]
             3600000000000 7200000000000).
    + lia.
    + repeat constructor; cbn [Time dose]; unfold time.maxDuration; lia.
  - apply (proj2 X5_level_decays_by_half_life
             [dose 0 95; dose 1800000000000 40] 3600000000000).
    repeat constructor; cbn [Time dose];
      unfold time.maxDuration; rewrite ?Hour_value; lia.
Defined.

(** ** Bounds on the level *)

Lemma Rpower_half_le_1 (y : R) : (0 <= y)%R -> (Rpower 0.5 y <= 1)%R.
Proof.
  intros Hy. rewrite <- Rpower_half_0. apply Rpower_half_antitone, Hy.
Qed.

Lemma contribution_le_dose (t : time.Time) (event : CoffeeIntakeEvent) :
  (0 <= Amount event)%R -> (contribution t event <= Amount event)%R.
Proof.
  intros Hdose. unfold contribution. cbv zeta.
  destruct (Rlt_dec (hoursBetween t (Time event)) 0) as [Hneg | Hpos].
  - exact Hdose.
  - pose proof (Rpower_half_le_1 (hoursBetween t (Time event) / 5.0)) as Hle.
    assert (Hy : (0 <= hoursBetween t (Time event) / 5.0)%R) by lra.
    specialize (Hle Hy).
    pose proof (Rpower_half_pos (hoursBetween t (Time event) / 5.0)).
    nra.
Qed.

(** X6. When all dose amounts are non-negative, the level at any time
    never exceeds the sum of the amounts logged. ([float64] is taken as
    exact.) *)
Theorem X6_level_at_most_total_dose
    (evs : list CoffeeIntakeEvent) (t : time.Time) :
  Forall (fun e => (0 <= Amount e)%R) evs ->
  exists level : R,
    eval (CalculateCaffeineLevelAt t) evs = Some level
    /\ (level <= totalDose evs)%R.
Proof.
  intros Hdoses. exists (sumContributions evs t).
  split; [apply eval_CalculateCaffeineLevelAt|].
  induction Hdoses as [|e rest He _ IH].
  - unfold sumContributions, totalDose. cbn. lra.
  - rewrite sumContributions_cons. unfold totalDose in *.
    cbn [map fold_right].
    pose proof (contribution_le_dose t e He). lra.
Qed.

Lemma X6_level_at_most_total_dose_witness :
  exists level : R,
    eval (CalculateCaffeineLevelAt 18000000000000)
         [dose 0 95; dose 3600000000000 40] = Some level
    /\ (level <= totalDose [dose 0 95; dose 3600000000000 40])%R.
Proof.
  apply X6_level_at_most_total_dose.
  repeat constructor; cbn; lra.
Defined.

(** ** More on the forecast *)

Lemma forecast_points (loc : time.Location) (evs : list CoffeeIntakeEvent)
    (now : time.Time) (P : Point.ForecastPoint -> Prop) :
  (forall i : Z, P (forecastPoint loc evs now i)) ->
  Forall P (map (forecastPoint loc evs now) forecastIndices).
Proof.
  intros H. apply Forall_forall. intros p Hin.
  apply in_map_iff in Hin. destruct Hin as (i & <- & _). apply H.
Qed.

(** X7. In a forecast, the level of every point is what the level
    calculation returns on the same store for the point's own time; the
    level of the first point is the level at [now]. *)
Theorem X7_forecast_levels_are_levels_at_point_times
    (loc : time.Location) (evs : list CoffeeIntakeEvent) (now : time.Time) :
  exists forecast : list Point.ForecastPoint,
    eval (GenerateForecast loc now) evs = Some forecast
    /\ Forall (fun p => eval (CalculateCaffeineLevelAt (Point.Time p)) evs
                        = Some (Point.Caffeine p)) forecast
    /\ exists first,
         nth_error forecast 0 = Some first
         /\ eval (CalculateCaffeineLevelAt now) evs
            = Some (Point.Caffeine first).
Proof.
  exists (map (forecastPoint loc evs now) forecastIndices).
  split; [apply eval_GenerateForecast|]. split.
  - apply forecast_points. intros i.
    rewrite eval_CalculateCaffeineLevelAt. reflexivity.
  - eexists. split; [apply (forecast_nth loc evs now 0); lia|].
    rewrite eval_CalculateCaffeineLevelAt.
    unfold forecastPoint. cbn [Point.Caffeine Z.of_nat].
    replace (now + 0 * 30 * time.Minute) with now by lia. reflexivity.
Qed.

(** X8. On an empty store the forecast still has its 48 points, every
    one with level 0, no drink flagged and drink amount 0. *)
Theorem X8_forecast_of_empty_store
    (loc : time.Location) (now : time.Time) :
  exists forecast : list Point.ForecastPoint,
    eval (GenerateForecast loc now) [] = Some forecast
    /\ List.length forecast = 48%nat
    /\ Forall (fun p => Point.Caffeine p = 0%R
                        /\ Point.HasDrink p = false
                        /\ Point.DrinkAmount p = 0%R) forecast.
Proof.
  exists (map (forecastPoint loc [] now) forecastIndices).
  split; [apply eval_GenerateForecast|].
  split; [rewrite length_map; apply forecastIndices_length|].
  apply forecast_points. intros i. repeat split.
Qed.

Lemma findDrink_first_match (loc : time.Location) (ti : time.Time) :
  forall evs : list CoffeeIntakeEvent,
    (fst (findDrink loc evs ti) = false
     /\ snd (findDrink loc evs ti) = 0%R
     /\ Forall (fun e => ~ sameClock loc ti e) evs)
    \/ (fst (findDrink loc evs ti) = true
        /\ exists before e after,
             evs = before ++ e :: after
             /\ Forall (fun e' => ~ sameClock loc ti e') before
             /\ sameClock loc ti e
             /\ snd (findDrink loc evs ti) = Amount e).
Proof.
  induction evs as [|e rest IH]; cbn [findDrink].
  - left. repeat split. constructor.
  - destruct (String.eqb_spec (time.Format_15_04 loc (Time e))
                              (time.Format_15_04 loc ti)) as [Heq | Hne].
    + right. split; [reflexivity|].
      exists [], e, rest. repeat split. constructor. exact Heq.
    + destruct IH as [(Hf & Hs & Hall) | (Hf & before & e' & after & -> & Hb & He & Hs)].
      * left. repeat split; try assumption. constructor; assumption.
      * right. split; [exact Hf|].
        exists (e :: before), e', after. repeat split; try assumption.
        constructor; assumption.
Qed.

(** X9. For every point of a forecast: either no event of the store
    renders to the point's hour and minute (["15:04"]), and then the
    point has no drink flagged and drink amount 0; or the point has a
    drink flagged and its drink amount is the amount of the first event,
    in insertion order, that renders to the point's hour and minute. *)
Theorem X9_forecast_flag_is_first_clock_match
    (loc : time.Location) (evs : list CoffeeIntakeEvent) (now : time.Time) :
  exists forecast : list Point.ForecastPoint,
    eval (GenerateForecast loc now) evs = Some forecast
    /\ Forall
         (fun p =>
            (Point.HasDrink p = false
             /\ Point.DrinkAmount p = 0%R
             /\ Forall (fun e => ~ sameClock loc (Point.Time p) e) evs)
            \/ (Point.HasDrink p = true
                /\ exists before e after,
                     evs = before ++ e :: after
                     /\ Forall (fun e' => ~ sameClock loc (Point.Time p) e')
                               before
                     /\ sameClock loc (Point.Time p) e
                     /\ Point.DrinkAmount p = Amount e))
         forecast.
Proof.
  exists (map (forecastPoint loc evs now) forecastIndices).
  split; [apply eval_GenerateForecast|].
  apply forecast_points. intros i.
  unfold forecastPoint. cbv zeta.
  cbn [Point.Time Point.HasDrink Point.DrinkAmount].
  apply findDrink_first_match.
Qed.

Lemma day_later_same_second_of_day (t c : Z) :
  ((t + 86400000000000) / 1000000000 + c) mod 86400
  = (t / 1000000000 + c) mod 86400.
Proof. Z.div_mod_to_equations. lia. Qed.

Lemma Format_day_later (c : Z) (t : time.Time) :
  time.Format_15_04 (fixedZone c) (t + 24 * time.Hour)
  = time.Format_15_04 (fixedZone c) t.
Proof.
  unfold time.Format_15_04, time.clockHour, time.clockMinute,
    time.secondsOfDay, fixedZone. cbn [time.zoneOffset]. cbv zeta.
  change time.Second with 1000000000.
  change (24 * time.Hour) with 86400000000000.
  rewrite day_later_same_second_of_day. reflexivity.
Qed.

Lemma findDrink_day_later (c : Z) (evs : list CoffeeIntakeEvent)
    (t : time.Time) :
  findDrink (fixedZone c) evs (t + 24 * time.Hour)
  = findDrink (fixedZone c) evs t.
Proof.
  induction evs as [|e rest IH]; cbn [findDrink].
  - reflexivity.
  - rewrite Format_day_later, IH. reflexivity.
Qed.

(** X10. In a location with a fixed offset from UTC, the drink flags and
    drink amounts of a forecast depend on [now] through its time of day
    only: the forecasts generated on the same store at [now] and 24
    hours later carry, point by point, the same flags and amounts. *)
Theorem X10_forecast_flags_repeat_daily
    (offset : Z) (evs : list CoffeeIntakeEvent) (now : time.Time) :
  exists today tomorrow : list Point.ForecastPoint,
    eval (GenerateForecast (fixedZone offset) now) evs = Some today
    /\ eval (GenerateForecast (fixedZone offset) (now + 24 * time.Hour)) evs
       = Some tomorrow
    /\ map Point.HasDrink tomorrow = map Point.HasDrink today
    /\ map Point.DrinkAmount tomorrow = map Point.DrinkAmount today.
Proof.
  do 2 eexists. rewrite !eval_GenerateForecast.
  split; [reflexivity|]. split; [reflexivity|].
  rewrite !map_map. split; apply map_ext; intros i;
    unfold forecastPoint; cbv zeta;
    cbn [Point.HasDrink Point.DrinkAmount];
    replace (now + 24 * time.Hour + i * 30 * time.Minute)
      with (now + i * 30 * time.Minute + 24 * time.Hour) by lia;
    rewrite findDrink_day_later; reflexivity.
Qed.

(** X11. When all dose amounts are non-negative and no event is later
    than [now], the levels of a forecast never increase from one point
    to a later one. ([float64] is taken as exact.) *)
Theorem X11_forecast_levels_never_increase
    (loc : time.Location) (evs : list CoffeeIntakeEvent) (now : time.Time) :
  Forall (fun e => (0 <= Amount e)%R /\ Time e <= now) evs ->
  exists forecast : list Point.ForecastPoint,
    eval (GenerateForecast loc now) evs = Some forecast
    /\ forall (i j : nat) (p q : Point.ForecastPoint),
         (i <= j)%nat ->
         nth_error forecast i = Some p ->
         nth_error forecast j = Some q ->
         (Point.Caffeine q <= Point.Caffeine p)%R.
Proof.
  intros Hevs.
  exists (map (forecastPoint loc evs now) forecastIndices).
  split; [apply eval_GenerateForecast|].
  intros i j p q Hij Hp Hq.
  assert (Hj : (j < 48)%nat).
  { assert (Hsome : nth_error (map (forecastPoint loc evs now) forecastIndices)
                        j <> None) by congruence.
    apply nth_error_Some in Hsome.
    rewrite length_map, forecastIndices_length in Hsome. exact Hsome. }
  rewrite forecast_nth in Hp by lia. rewrite forecast_nth in Hq by lia.
  injection Hp as <-. injection Hq as <-.
  unfold forecastPoint. cbn [Point.Caffeine].
  apply sumContributions_antitone.
  - change time.Minute with 60000000000. lia.
  - eapply Forall_impl; [|exact Hevs]. cbv beta. intros e [H _]. exact H.
  - eapply Forall_impl; [|exact Hevs]. cbv beta. intros e [_ H]. left.
    change time.Minute with 60000000000. lia.
Qed.

Lemma forecast_point_exists (loc : time.Location)
    (evs : list CoffeeIntakeEvent) (now : time.Time)
    (forecast : list Point.ForecastPoint) (i : nat) :
  eval (GenerateForecast loc now) evs = Some forecast ->
  (i < 48)%nat ->
  exists p, nth_error forecast i = Some p.
Proof.
  rewrite eval_GenerateForecast. intros [= <-] Hi.
  eexists. apply forecast_nth, Hi.
Qed.

Lemma X11_forecast_levels_never_increase_witness :
  exists (forecast : list Point.ForecastPoint) (p q : Point.ForecastPoint),
    eval (GenerateForecast time.UTC 3600000000000)
         [dose 0 95; dose 1800000000000 40] = Some forecast
    /\ nth_error forecast 3 = Some p
    /\ nth_error forecast 10 = Some q
    /\ (Point.Caffeine q <= Point.Caffeine p)%R.
Proof.
  destruct (X11_forecast_levels_never_increase
              time.UTC [dose 0 95; dose 1800000000000 40] 3600000000000)
    as (forecast & Heval & Hmono).
  { repeat constructor; cbn [Time Amount dose]; try lra; lia. }
  destruct (forecast_point_exists _ _ _ forecast 3%nat Heval) as (p & Hp);
    [lia|].
  destruct (forecast_point_exists _ _ _ forecast 10%nat Heval) as (q & Hq);
    [lia|].
  exists forecast, p, q. repeat split; try assumption.
  apply (Hmono 3%nat 10%nat p q); [lia | exact Hp | exact Hq].
Defined.

Lemma filter_unlocked_nil (lg : list Entry) :
  Forall (fun e => held e = true) lg ->
  filter (fun e => negb (held e)) lg = [].
Proof.
  induction 1 as [|e rest He _ IH]; [reflexivity|].
  cbn [filter]. rewrite He. exact IH.
Qed.

Lemma forecastLog_unlocked (evs : list CoffeeIntakeEvent) (now : time.Time)
    (indices : list Z) :
  filter (fun e => negb (held e)) (forecastLog evs now indices)
  = repeat (unlocked ReadEvents) (List.length indices).
Proof.
  induction indices as [|i rest IH]; [reflexivity|].
  unfold forecastLog in *. cbn [flat_map List.length repeat].
  rewrite !filter_app, filter_unlocked_nil by apply levelLog_locked.
  rewrite IH. reflexivity.
Qed.

(** X12. [GenerateForecast] returns with the store unchanged and the
    mutex free. It reads the event sequence without holding the mutex
    exactly 48 times, once per point; everything else it records (the
    reads and [math.Pow] calls of the 48 level calculations) happens
    with the mutex held. *)
Theorem X12_forecast_reads_store_unlocked_once_per_point
    (loc : time.Location) (evs : list CoffeeIntakeEvent) (now : time.Time) :
  exists (forecast : list Point.ForecastPoint) (lg : list Entry),
    outcome (GenerateForecast loc now) evs = Some (forecast, evs, lg)
    /\ filter (fun e => negb (held e)) lg
       = repeat (unlocked ReadEvents) 48.
Proof.
  do 2 eexists. unfold outcome. rewrite GenerateForecast_run.
  cbn [world tracker mu events log app]. split; [reflexivity|].
  rewrite forecastLog_unlocked. reflexivity.
Qed.

(** ** The handlers *)

Lemma outcome_run {A} (m : M A) (evs evs' : list CoffeeIntakeEvent)
    (lg : list Entry) (a : A) :
  m (world false evs []) = Some (a, world false evs' lg) ->
  outcome m evs = Some (a, evs', lg).
Proof. intros H. unfold outcome. rewrite H. reflexivity. Qed.



(** X14. A POST to [/api/add-coffee] whose body the decoder rejects is
    answered 400 "Invalid request body" and leaves the tracker
    untouched. A POST whose body decodes is answered 200 with status
    "success" and appends one event with the time of the call and the
    decoded amount, whatever that amount is (zero and negative amounts
    included). *)
Theorem X14_add_coffee_post
    (now : time.Time) (evs : list CoffeeIntakeEvent) :
  outcome (handleAddCoffee now {| Method := "POST"; Body := None |}) evs
  = Some (httpError "Invalid request body" http.StatusBadRequest, evs, [])
  /\ forall req : Drink.DrinkRequest,
       exists lg,
         outcome (handleAddCoffee now {| Method := "POST";
                                         Body := Some req |}) evs
         = Some ({| StatusCode := 200; Written := StatusBody "success" |},
                 evs ++ [dose now (Drink.Amount req)], lg)
         /\ Forall (fun e => held e = true) lg.
Proof.
  split; [reflexivity|].
  intros req. eexists. split.
  - apply outcome_run. unfold handleAddCoffee.
    cbn [Method Body String.eqb Ascii.eqb Bool.eqb http.MethodPost negb].
    rewrite (bind_run _ _ _ _ _ (AddDrink_run _ _ _ _)). reflexivity.
  - repeat constructor.
Qed.


(** X16. Through the handlers: after an accepted POST to
    [/api/add-coffee], a GET to [/api/events] lists the previous events
    followed by the new one; after a POST with an undecodable body it
    lists the previous events only. *)
Theorem X16_post_then_get_events
    (now : time.Time) (evs : list CoffeeIntakeEvent)
    (req : Drink.DrinkRequest) :
  let get := {| Method := "GET"; Body := None |} in
  eval (handleAddCoffee now {| Method := "POST"; Body := Some req |}
        ;;; handleEvents get) evs
  = Some {| StatusCode := 200;
            Written := EventsBody (evs ++ [dose now (Drink.Amount req)]) |}
  /\ eval (handleAddCoffee now {| Method := "POST"; Body := None |}
           ;;; handleEvents get) evs
     = Some {| StatusCode := 200; Written := EventsBody evs |}.
Proof.
  cbv zeta. unfold eval, handleAddCoffee, handleEvents.
  cbn [Method Body String.eqb Ascii.eqb Bool.eqb http.MethodPost
       http.MethodGet negb].
  change {| tracker := _; log := [] |} with (world false evs []).
  split.
  - erewrite bind_run
      by (rewrite (bind_run _ _ _ _ _ (AddDrink_run _ _ _ _)); reflexivity).
    rewrite (bind_run _ _ _ _ _ (GetEvents_run _ _)). reflexivity.
  - erewrite bind_run by reflexivity.
    rewrite (bind_run _ _ _ _ _ (GetEvents_run _ _)). reflexivity.
Qed.

(** X17. In the first program a POST to [/api/add-coffee] is accepted
    whatever its body (it is not decoded): the answer is 200 with
    status "success" and one event of 95 mg at the time of the call is
    appended. *)
Theorem X17_first_program_add_coffee_ignores_body
    (now : time.Time) (body : option Drink.DrinkRequest)
    (evs : list CoffeeIntakeEvent) :
  exists lg,
    outcome (CupServer.handleAddCoffee now {| Method := "POST";
                                              Body := body |}) evs
    = Some ({| StatusCode := 200; Written := StatusBody "success" |},
            evs ++ [dose now 95], lg).
Proof.
  eexists. apply outcome_run. unfold CupServer.handleAddCoffee.
  cbn [Method String.eqb Ascii.eqb Bool.eqb http.MethodPost negb].
  change (CupTracker.AddCoffee now)
    with (AddDrink now CupTracker.caffeinePerCupMg).
  rewrite (bind_run _ _ _ _ _ (AddDrink_run _ _ _ _)).
  unfold CupTracker.caffeinePerCupMg.
  replace 95.0%R with 95%R by lra. reflexivity.
Qed.
